(** * The S.O.L.I.D. shape example ([src/principles/solid.js])

    The program builds shape objects out of small "interface" objects by
    [Object.assign] and [Object.create], sums what each shape's
    [calculate()] returns, and prints the total in several formats.

    The model keeps the program's own structure:
    - a JavaScript value is a number, a string, [undefined], [null], an
      array, a function or an object; an object is a finite map of own
      properties together with its prototype;
    - a function value is the function expression of the source it was
      created from together with the variables that expression captures
      (closure conversion); [call] gives every such expression its body;
    - calls run in a monad that threads the global variables (the [for]
      loop of [sum] assigns the undeclared variable [shape]) and that
      records a thrown error;
    - numbers and the arithmetic on them are an interface ([Arith]) with
      two implementations: the exact reals the specification speaks of,
      and IEEE 754 binary64, which is what a JavaScript engine computes;
    - the decimal digits the runtime prints for a number are not computed:
      a text keeps the number it shows. *)

From Stdlib Require Import Reals Lra Floats ZArith.
From stdpp Require Import gmap strings list.

(** ** Numbers *)

(** The arithmetic the program uses: numeric literals, [Math.PI], [+],
    [*] and [Math.pow] (only ever called with the literal exponents 2 and
    3, hence a natural-number exponent). *)
Class Arith (number : Type) : Type := {
  lit : Z → number;
  Math_PI : number;
  add : number → number → number;
  mul : number → number → number;
  Math_pow : number → nat → number
}.

(** Exact real arithmetic. *)
#[export] Instance real_arith : Arith R := {
  lit := IZR;
  Math_PI := PI;
  add := Rplus;
  mul := Rmult;
  Math_pow := pow
}.

(** binary64 literals: exact below 2^53 in magnitude, which covers every
    literal used below. *)
Definition float_lit (z : Z) : float :=
  match z with
  | Z0 => PrimFloat.zero
  | Zpos _ => PrimFloat.of_uint63 (Uint63.of_Z z)
  | Zneg _ => PrimFloat.opp (PrimFloat.of_uint63 (Uint63.of_Z (Z.opp z)))
  end.

(** [Math.pow] on binary64 is implementation-approximated by the language
    standard. It is taken here as repeated rounded multiplication, so that
    [Math.pow(x, 2)] is the correctly rounded [x * x]; whenever the exact
    power is representable, as in every evaluation below, this is the
    value any engine returns. The general theorems hold for every
    implementation of [Arith], so for whatever [Math.pow] an engine has. *)
Fixpoint float_pow (x : float) (n : nat) : float :=
  match n with
  | O => PrimFloat.one
  | S O => x
  | S m => PrimFloat.mul x (float_pow x m)
  end.

(** [Math.PI] is the binary64 number nearest to pi. *)
Definition float_PI : float := 0x1.921fb54442d18p+1%float.

(** IEEE 754 binary64 arithmetic, round to nearest even. *)
#[export] Instance binary64_arith : Arith float := {
  lit := float_lit;
  Math_PI := float_PI;
  add := PrimFloat.add;
  mul := PrimFloat.mul;
  Math_pow := float_pow
}.

(** ** Values *)

Section Values.
Context {number : Type}.

(** A string is a sequence of pieces: literal characters, or the digits
    the runtime writes for a number, either in a template literal
    ([ToString]) or through [JSON.stringify]. *)
Inductive piece : Type :=
| Chars (s : string)
| Digits (x : number)
| JSON_digits (x : number).

Definition text : Type := list piece.

#[warnings="-register-all"]
Inductive value : Type :=
| VUndef
| VNull
| VNum (x : number)
| VStr (t : text)
| VArr (elems : list value)
| VClo (c : closure)
| VObj (o : object)

(** One constructor per function expression of the source, carrying the
    variables the expression captures. *)
with closure : Type :=
| shapeInterface_area (state : value)              (* () => state.area(state) *)
| solidShapeInterface_volume (state : value)       (* () => state.volume(state) *)
| manageShapeInterface_calculate (fn : value)      (* () => fn() *)
| square_area                                      (* args => Math.pow(args.length, 2) *)
| square_abstraccion (basics : value)              (* () => basics.area() *)
| circle_area                                      (* args => Math.PI * Math.pow(args.radius, 2) *)
| circle_abstraccion (basics : value)              (* () => basics.area() *)
| cubo_area                                        (* args => Math.pow(args.length, 2) *)
| cubo_volume                                      (* args => Math.pow(args.length, 3) *)
| cubo_abstraccion (basics complex : value)        (* () => basics.area() + complex.volume() *)
| areaCalculator_sum                               (* sum() { ... } *)
| outputter_JSON                                   (* JSON() { ... } *)
| outputter_HAML                                   (* HAML() { ... } *)
| outputter_HTML                                   (* HTML() { ... } *)
| outputter_JADE                                   (* JADE() { ... } *)

(** Own properties and prototype ([None] is the end of the chain). *)
with object : Type :=
| Obj (own : gmap string value) (proto : option object).

(** A string literal. *)
Definition str (s : string) : value := VStr [Chars s].

Definition own (o : object) : gmap string value :=
  match o with Obj m _ => m end.

(** ** Objects *)

(** An object literal [{ k1: v1, k2: v2, ... }]; a later key wins. *)
Definition object_literal (props : list (string * value)) : object :=
  Obj (fold_left (fun m kv => <[kv.1 := kv.2]> m) props ∅) None.

(** [Object.create(proto)]. *)
Definition Object_create (proto : object) : object :=
  Obj ∅ (Some proto).

(** [Object.getPrototypeOf(o)]; [None] stands for [null]. *)
Definition Object_getPrototypeOf (o : object) : option object :=
  match o with Obj _ p => p end.

(** [Object.assign(target, ...sources)] copies the own properties of each
    source in turn, later sources overwriting; a [null] source is
    skipped. The prototype of the target is kept. *)
Definition Object_assign (target : object) (sources : list (option object)) : object :=
  fold_left
    (fun t src =>
       match src with
       | Some s => Obj (own s ∪ own t) (Object_getPrototypeOf t)
       | None => t
       end)
    sources target.

(** Property read on an object: own properties first, then the prototype
    chain; [undefined] when no object of the chain has the property. *)
Fixpoint lookup_chain (o : object) (k : string) : value :=
  match o with
  | Obj m p =>
      match m !! k with
      | Some v => v
      | None =>
          match p with
          | Some o' => lookup_chain o' k
          | None => VUndef
          end
      end
  end.

(** ** Outcomes and the call monad *)

Inductive error : Type :=
| TypeError.

(** A call returns, throws, leaves the modelled fragment of the language
    ([Unsupported]: coercion of a non-number to a number, string
    concatenation by [+], iteration over a string, [this] replaced by the
    global object) or exhausts the recursion budget of [call]. *)
Inductive outcome (A : Type) : Type :=
| Return (a : A)
| Throw (e : error)
| Unsupported
| OutOfFuel.
Global Arguments Return {A} a.
Global Arguments Throw {A} e.
Global Arguments Unsupported {A}.
Global Arguments OutOfFuel {A}.

(** A computation reads and writes the global variables, a finite map from
    names to values, and ends in an outcome. *)
Definition M (A : Type) : Type :=
  gmap string value → outcome A * gmap string value.

Definition ret {A} (a : A) : M A := fun g => (Return a, g).
Definition throw {A} (e : error) : M A := fun g => (Throw e, g).
Definition unsupported {A} : M A := fun g => (Unsupported, g).
Definition out_of_fuel {A} : M A := fun g => (OutOfFuel, g).

Definition bind {A B} (m : M A) (k : A → M B) : M B :=
  fun g =>
    match m g with
    | (Return a, g') => k a g'
    | (Throw e, g') => (Throw e, g')
    | (Unsupported, g') => (Unsupported, g')
    | (OutOfFuel, g') => (OutOfFuel, g')
    end.

(** Assignment to a global variable. *)
Definition set_global (x : string) (v : value) : M unit :=
  fun g => (Return tt, <[x := v]> g).

End Values.

Global Arguments piece : clear implicits.
Global Arguments text : clear implicits.
Global Arguments value : clear implicits.
Global Arguments closure : clear implicits.
Global Arguments object : clear implicits.
Global Arguments M : clear implicits.

(** The global variables. *)
Abbreviation globals number := (gmap string (value number)).

Notation "'let!' x ':=' m 'in' k" := (bind m (fun x => k))
  (at level 10, x name, m at level 100, k at level 200, only parsing).
Notation "m ;; k" := (bind m (fun _ => k))
  (at level 100, k at level 200, right associativity, only parsing).

(** ** The program *)

Section Program.
Context {number : Type} {arith : Arith number}.

Abbreviation value := (value number).
Abbreviation object := (object number).
Abbreviation M := (M number).

(** *** Operators and built-ins on values *)

(** [o.k]: reading a property of [undefined] or [null] throws; only
    objects carry the properties the program names, except [length],
    which arrays have too (strings and functions as well: not modelled). *)
Definition get_prop (o : value) (k : string) : M value :=
  match o with
  | VUndef | VNull => throw TypeError
  | VObj obj => ret (lookup_chain obj k)
  | VArr elems =>
      if String.eqb k "length" then ret (VNum (lit (Z.of_nat (length elems))))
      else ret VUndef
  | VStr _ | VClo _ =>
      if String.eqb k "length" then unsupported else ret VUndef
  | VNum _ => ret VUndef
  end.

(** [a + b] on two numbers. *)
Definition js_add (a b : value) : M value :=
  match a, b with
  | VNum x, VNum y => ret (VNum (add x y))
  | _, _ => unsupported
  end.

(** [a * b] on two numbers. *)
Definition js_mul (a b : value) : M value :=
  match a, b with
  | VNum x, VNum y => ret (VNum (mul x y))
  | _, _ => unsupported
  end.

(** [Math.pow(a, n)] for a numeric literal [n]. *)
Definition js_pow (a : value) (n : nat) : M value :=
  match a with
  | VNum x => ret (VNum (Math_pow x n))
  | _ => unsupported
  end.

(** The values a [for (... of v)] loop visits. *)
Definition iterate (v : value) : M (list value) :=
  match v with
  | VArr elems => ret elems
  | VStr _ => unsupported
  | _ => throw TypeError
  end.

(** A [for ... of] loop whose body updates the local state [acc]. *)
Fixpoint for_of {A} (elems : list value) (acc : A) (body : value → A → M A) : M A :=
  match elems with
  | [] => ret acc
  | x :: rest => let! acc' := body x acc in for_of rest acc' body
  end.

(** [arr.reduce(callback, init)]. *)
Fixpoint reduce (callback : value → value → M value) (init : value)
    (arr : list value) : M value :=
  match arr with
  | [] => ret init
  | c :: rest => let! v := callback init c in reduce callback v rest
  end.

(** [this] inside a method written with the method shorthand. Called
    without a receiver, a sloppy-mode function sees the global object. *)
Definition receiver (this : value) : M value :=
  match this with
  | VUndef | VNull => unsupported
  | _ => ret this
  end.

(** [JSON.stringify(v)] for a number. *)
Definition JSON_stringify (v : value) : M value :=
  match v with
  | VNum x => ret (VStr [JSON_digits x])
  | _ => unsupported
  end.

(** What a template literal inserts for [${v}]. *)
Definition template_hole (v : value) : M (text number) :=
  match v with
  | VNum x => ret [Digits x]
  | VStr t => ret t
  | _ => unsupported
  end.

Definition newline : string := String (Ascii.ascii_of_nat 10) EmptyString.

(** The characters [HTML()] puts before and after the total. *)
Definition HTML_before : string :=
  newline +:+ "          <h1>" +:+ newline
  +:+ "            Sum of the areas of provided shapes:" +:+ newline
  +:+ "            ".
Definition HTML_after : string :=
  newline +:+ "          </h1>".

(** *** Function bodies *)

Section Bodies.
(** [callf f this args] is [f.call(this, ...args)] for the calls a body
    makes. *)
Variable callf : value → value → list value → M value.

(** [o.k(...args)]. *)
Definition method_call (o : value) (k : string) (args : list value) : M value :=
  let! m := get_prop o k in callf m o args.

(** One turn of the loop of [sum]: [shape] is not declared, so the loop
    assigns a global variable; then [area.push(shape.calculate())]. *)
Definition sum_loop (shape : value) (area : list value) : M (list value) :=
  set_global "shape" shape ;;
  let! a := method_call shape "calculate" [] in
  ret (area ++ [a]).

(** The body of each function expression. *)
Definition body (c : closure number) (this : value) (args : list value) : M value :=
  let arg0 := nth 0 args VUndef in
  match c with
  | shapeInterface_area state => method_call state "area" [state]
  | solidShapeInterface_volume state => method_call state "volume" [state]
  | manageShapeInterface_calculate fn => callf fn VUndef []
  | square_area =>
      let! l := get_prop arg0 "length" in js_pow l 2
  | square_abstraccion basics => method_call basics "area" []
  | circle_area =>
      let! r := get_prop arg0 "radius" in
      let! p := js_pow r 2 in
      js_mul (VNum Math_PI) p
  | circle_abstraccion basics => method_call basics "area" []
  | cubo_area =>
      let! l := get_prop arg0 "length" in js_pow l 2
  | cubo_volume =>
      let! l := get_prop arg0 "length" in js_pow l 3
  | cubo_abstraccion basics complex =>
      let! a := method_call basics "area" [] in
      let! v := method_call complex "volume" [] in
      js_add a v
  | areaCalculator_sum =>
      let! this := receiver this in
      let! shapes := get_prop this "shapes" in
      let! elems := iterate shapes in
      let! area := for_of elems [] sum_loop in
      reduce (fun v c => js_add c v) (VNum (lit 0)) area
  | outputter_JSON =>
      let! this := receiver this in
      let! calculator := get_prop this "calculator" in
      let! total := method_call calculator "sum" [] in
      JSON_stringify total
  | outputter_HAML => ret (str "HAML format output")
  | outputter_HTML =>
      let! this := receiver this in
      let! calculator := get_prop this "calculator" in
      let! total := method_call calculator "sum" [] in
      let! shown := template_hole total in
      ret (VStr ([Chars HTML_before] ++ shown ++ [Chars HTML_after]))
  | outputter_JADE => ret (str "JADE format output")
  end.

End Bodies.

(** [call fuel f this args] runs [f.call(this, ...args)]. Calling a value
    that is not a function throws a [TypeError]. [fuel] bounds the depth
    of nested calls. *)
Fixpoint call (fuel : nat) (f this : value) (args : list value) : M value :=
  match f with
  | VClo c =>
      match fuel with
      | O => out_of_fuel
      | S fuel => body (call fuel) c this args
      end
  | _ => throw TypeError
  end.

(** [o.k(...args)] as a statement of the program. *)
Definition call_method (fuel : nat) (o : value) (k : string) (args : list value) : M value :=
  method_call (call fuel) o k args.

(** *** The factories *)

Definition shapeInterface (state : value) : object :=
  object_literal
    [("type", str "shapeInterface");
     ("area", VClo (shapeInterface_area state))].

Definition solidShapeInterface (state : value) : object :=
  object_literal
    [("type", str "solidShapeInterface");
     ("volume", VClo (solidShapeInterface_volume state))].

Definition manageShapeInterface (fn : value) : object :=
  object_literal
    [("type", str "manageShapeInterface");
     ("calculate", VClo (manageShapeInterface_calculate fn))].

Definition square (length : value) : object :=
  let proto :=
    object_literal
      [("length", length); ("type", str "Square"); ("area", VClo square_area)] in
  let basics := shapeInterface (VObj proto) in
  let abstraccion := manageShapeInterface (VClo (square_abstraccion (VObj basics))) in
  let composite := Object_assign (object_literal []) [Some basics; Some abstraccion] in
  Object_assign (Object_create composite) [Some (object_literal [("length", length)])].

Definition circle (radius : value) : object :=
  let proto :=
    object_literal
      [("radius", radius); ("type", str "Circle"); ("area", VClo circle_area)] in
  let basics := shapeInterface (VObj proto) in
  let abstraccion := manageShapeInterface (VClo (circle_abstraccion (VObj basics))) in
  let composite := Object_assign (object_literal []) [Some basics; Some abstraccion] in
  Object_assign (Object_create composite) [Some (object_literal [("radius", radius)])].

Definition cubo (length : value) : object :=
  let proto :=
    object_literal
      [("length", length); ("type", str "Cubo");
       ("area", VClo cubo_area); ("volume", VClo cubo_volume)] in
  let basics := shapeInterface (VObj proto) in
  let complex := solidShapeInterface (VObj proto) in
  let abstraccion :=
    manageShapeInterface (VClo (cubo_abstraccion (VObj basics) (VObj complex))) in
  let composite := Object_assign (object_literal []) [Some basics; Some abstraccion] in
  Object_assign (Object_create composite) [Some (object_literal [("length", length)])].

Definition areaCalculator (s : value) : object :=
  let proto :=
    object_literal
      [("type", str "areaCalculator"); ("sum", VClo areaCalculator_sum)] in
  Object_assign (Object_create proto) [Some (object_literal [("shapes", s)])].

Definition volumeCalculator (s : value) : object :=
  let proto := object_literal [("type", str "volumeCalculator")] in
  let areaCalProto := Object_getPrototypeOf (areaCalculator VUndef) in
  let inherit := Object_assign (object_literal []) [areaCalProto; Some proto] in
  Object_assign (Object_create inherit) [Some (object_literal [("shapes", s)])].

Definition sumCalculatorOputter (a : value) : object :=
  let proto :=
    object_literal
      [("JSON", VClo outputter_JSON); ("HAML", VClo outputter_HAML);
       ("HTML", VClo outputter_HTML); ("JADE", VClo outputter_JADE)] in
  Object_assign (Object_create proto) [Some (object_literal [("calculator", a)])].

End Program.

(** ** Vocabulary of the properties *)

Section Vocabulary.
Context {number : Type} {arith : Arith number}.

Abbreviation value := (value number).
Abbreviation M := (M number).

(** A shape made by one of the three factories from a number. *)
Inductive shape_desc : Type :=
| Circle (radius : number)
| Square (length : number)
| Cubo (length : number).

Definition build (d : shape_desc) : value :=
  match d with
  | Circle radius => VObj (circle (VNum radius))
  | Square length => VObj (square (VNum length))
  | Cubo length => VObj (cubo (VNum length))
  end.

(** The arithmetic done along the call chain of [calculate()] for each
    kind of shape (lemma [calculate_build] below). *)
Definition contribution (d : shape_desc) : number :=
  match d with
  | Circle radius => mul Math_PI (Math_pow radius 2)
  | Square length => Math_pow length 2
  | Cubo length => add (Math_pow length 2) (Math_pow length 3)
  end.

(** The accumulation [reduce((v, c) => (c += v), 0)] performs over numbers,
    in the order the program performs it. *)
Definition accumulate (init : number) (cs : list number) : number :=
  fold_left (fun v c => add c v) cs init.

(** The global variables once the loop of [sum] has visited [elems]. *)
Definition visited (g : globals number) (elems : list value) : globals number :=
  fold_left (fun g shape => <["shape" := shape]> g) elems g.

(** [v.k] is a function. *)
Definition has_method (v : value) (k : string) : bool :=
  match v with
  | VObj o => match lookup_chain o k with VClo _ => true | _ => false end
  | _ => false
  end.

(** [calculator.sum()]. *)
Definition sum (fuel : nat) (calculator : object number) : M value :=
  call_method fuel (VObj calculator) "sum" [].

(** A call is pure when, from every state of the global variables, it
    returns the same value and leaves every variable as it was. *)
Definition pure_call (m : M value) (v : value) : Prop :=
  ∀ g, m g = (Return v, g).

End Vocabulary.

Global Arguments shape_desc : clear implicits.

(** ** The script at the end of the file, run in binary64 *)

Module Script.

Definition shapes : value float :=
  VArr [VObj (circle (VNum (lit 2))); VObj (square (VNum (lit 5)));
        VObj (square (VNum (lit 6)))].

Definition solids : value float := VArr [VObj (cubo (VNum (lit 4)))].

Definition areas : object float := areaCalculator shapes.
Definition volume : object float := volumeCalculator solids.

Definition output : object float := sumCalculatorOputter (VObj areas).
Definition output2 : object float := sumCalculatorOputter (VObj volume).

(** What a [console.log] of the script prints, when the call returns. *)
Definition printed (o : object float) (method : string) : outcome (value float) :=
  fst (call_method 6 (VObj o) method [] ∅).

End Script.

(** The usual sum of a list of reals. *)
Definition Rsum (cs : list R) : R := fold_right Rplus 0%R cs.

(** ** Earlier versions of the example

    The SOLID document develops the program in steps. Its earlier
    versions of the factories and of [sum] are modelled here with the
    same values, objects and calls. *)

Section Document.
Context {number : Type} {arith : Arith number}.

Abbreviation value := (value number).
Abbreviation object := (object number).
Abbreviation M := (M number).

(** The factories of the first section: a prototype that only holds the
    type tag. *)
Definition circle_tagged (radius : value) : object :=
  let proto := object_literal [("type", str "Circle")] in
  Object_assign (Object_create proto) [Some (object_literal [("radius", radius)])].

Definition square_tagged (length : value) : object :=
  let proto := object_literal [("type", str "Square")] in
  Object_assign (Object_create proto) [Some (object_literal [("length", length)])].

(** [square] when [shapeInterface] is introduced: the composite is
    [Object.assign({}, basics)]. *)
Definition square_with_interface (length : value) : object :=
  let proto :=
    object_literal
      [("length", length); ("type", str "Square"); ("area", VClo square_area)] in
  let basics := shapeInterface (VObj proto) in
  let composite := Object_assign (object_literal []) [Some basics] in
  Object_assign (Object_create composite) [Some (object_literal [("length", length)])].


(** The characters of a text without digits of a number. *)
Fixpoint characters (t : text number) : option string :=
  match t with
  | [] => Some EmptyString
  | Chars s :: rest => option_map (String.append s) (characters rest)
  | _ => None
  end.

(** [v === 'literal']: no coercion, so only a string can be equal to the
    literal. (A text that shows the digits of a number is not compared.) *)
Definition strict_equal_literal (v : value) (literal : string) : M bool :=
  match v with
  | VStr t =>
      match characters t with
      | Some s => ret (String.eqb s literal)
      | None => unsupported
      end
  | _ => ret false
  end.

(** [Object.getPrototypeOf(v)]. Every object of the model has
    [Object.prototype] at the end of its chain, and a number, a string, an
    array or a function has a built-in prototype: none of these has a
    property the program names, so they are an object without properties. *)
Definition prototype_of (v : value) : M value :=
  match v with
  | VUndef | VNull => throw TypeError
  | VObj (Obj _ (Some p)) => ret (VObj p)
  | _ => ret (VObj (Obj ∅ None))
  end.

(** *** [sum] by type tag (open-closed section, first listing)

    [for (let shape of this.shapes)]: the loop variable is declared, no
    global is written. A shape whose tag is neither ['Square'] nor
    ['Circle'] adds nothing to [area]. *)
Definition sum_by_type_loop (shape : value) (area : list value) : M (list value) :=
  let! type := get_prop shape "type" in
  let! is_square := strict_equal_literal type "Square" in
  if is_square then
    let! l := get_prop shape "length" in
    let! a := js_pow l 2 in
    ret (area ++ [a])
  else
    let! type := get_prop shape "type" in
    let! is_circle := strict_equal_literal type "Circle" in
    if is_circle then
      let! l := get_prop shape "length" in
      let! p := js_pow l 2 in
      let! a := js_mul (VNum Math_PI) p in
      ret (area ++ [a])
    else ret area.

Definition sum_by_type (this : value) : M value :=
  let! this := receiver this in
  let! shapes := get_prop this "shapes" in
  let! elems := iterate shapes in
  let! area := for_of elems [] sum_by_type_loop in
  reduce (fun v c => js_add c v) (VNum (lit 0)) area.

(** *** [sum] with the interface check (open-closed section, last listing)

    The loop either finishes with the collected areas or ends by
    [throw new Error('this is not a shapeInterface object')]. *)
Inductive checked (A : Type) : Type :=
| Passed (a : A)
| Error_thrown (message : string).
Global Arguments Passed {A} a.
Global Arguments Error_thrown {A} message.

(** [Object.getPrototypeOf(shape).type === 'shapeInterface']. *)
Definition implements_shapeInterface (shape : value) : M bool :=
  let! proto := prototype_of shape in
  let! type := get_prop proto "type" in
  strict_equal_literal type "shapeInterface".

Fixpoint sum_checked_loop (fuel : nat) (elems : list value) (area : list value)
    : M (checked (list value)) :=
  match elems with
  | [] => ret (Passed area)
  | shape :: rest =>
      set_global "shape" shape ;;
      let! is_shape := implements_shapeInterface shape in
      if is_shape then
        let! a := call_method fuel shape "area" [] in
        sum_checked_loop fuel rest (area ++ [a])
      else ret (Error_thrown "this is not a shapeInterface object")
  end.

Definition sum_checked (fuel : nat) (this : value) : M (checked value) :=
  let! this := receiver this in
  let! shapes := get_prop this "shapes" in
  let! elems := iterate shapes in
  let! looped := sum_checked_loop fuel elems [] in
  match looped with
  | Passed area =>
      let! total := reduce (fun v c => js_add c v) (VNum (lit 0)) area in
      ret (Passed total)
  | Error_thrown message => ret (Error_thrown message)
  end.

(** An element of a mixed sequence: a square of the first section, given
    by its side, or a shape made by the factories of the final program. *)
Definition tagged_or_built (i : number + shape_desc number) : value :=
  match i with
  | inl length => VObj (square_tagged (VNum length))
  | inr d => build d
  end.

(** The sides of the squares of the first section in a mixed sequence. *)
Fixpoint tagged_sides (items : list (number + shape_desc number)) : list number :=
  match items with
  | [] => []
  | inl length :: rest => length :: tagged_sides rest
  | inr _ :: rest => tagged_sides rest
  end.

(** What [for ... of] cannot run over. *)
Definition not_iterable (v : value) : bool :=
  match v with
  | VArr _ | VStr _ => false
  | _ => true
  end.

End Document.

(** ** Comparisons and subtraction

    The account and token examples also subtract, divide and compare
    numbers. [ltb a b] is [a < b] and [leb a b] is [a <= b]; the program's
    [a > b] is [ltb b a] and [a >= b] is [leb b a]. *)
Class Compare (number : Type) : Type := {
  sub : number → number → number;
  div : number → number → number;
  ltb : number → number → bool;
  leb : number → number → bool
}.

#[export] Instance real_compare : Compare R := {
  sub := Rminus;
  div := Rdiv;
  ltb := fun a b => if Rlt_dec a b then true else false;
  leb := fun a b => if Rle_dec a b then true else false
}.

#[export] Instance binary64_compare : Compare float := {
  sub := PrimFloat.sub;
  div := PrimFloat.div;
  ltb := PrimFloat.ltb;
  leb := PrimFloat.leb
}.

(** ** Classes with fields that are assigned

    The TypeScript examples assign fields of objects that several
    variables can refer to, print lines on the console and throw [Error]
    objects. A computation threads a state and ends normally, by a thrown
    [Error] with its message, by a [TypeError], or on a reference that is
    not in the store. *)
Inductive result (A : Type) : Type :=
| Normal (a : A)
| Thrown (message : string)
| Thrown_TypeError
| Dangling.
Global Arguments Normal {A} a.
Global Arguments Thrown {A} message.
Global Arguments Thrown_TypeError {A}.
Global Arguments Dangling {A}.

Definition St (S A : Type) : Type := S → result A * S.

Definition st_ret {S A} (a : A) : St S A := fun s => (Normal a, s).

Definition st_throw {S A} (message : string) : St S A := fun s => (Thrown message, s).

Definition st_bind {S A B} (m : St S A) (k : A → St S B) : St S B :=
  fun s =>
    match m s with
    | (Normal a, s') => k a s'
    | (Thrown message, s') => (Thrown message, s')
    | (Thrown_TypeError, s') => (Thrown_TypeError, s')
    | (Dangling, s') => (Dangling, s')
    end.

Notation "'let*' x ':=' m 'in' k" := (st_bind m (fun x => k))
  (at level 10, x name, m at level 100, k at level 200, only parsing).
Notation "m ;;; k" := (st_bind m (fun _ => k))
  (at level 100, k at level 200, right associativity, only parsing).

(** ** Accounts: the separation-of-concerns example *)

Module SoC.

Section Store.
Context {number : Type}.

(** The fields of [class User]. *)
Record User : Type := {
  _id : string;
  name : string;
  balance : number
}.

(** The [User] objects, by reference, and the lines given to
    [console.log]. Every line is printed after the current date and
    [' :: ']; a line is kept here without that prefix. *)
Record world : Type := {
  users : gmap nat User;
  console : list (text number)
}.

(** Reading the fields of the object a reference points to. *)
Definition read (u : nat) : St world User :=
  fun w =>
    match users w !! u with
    | Some U => (Normal U, w)
    | None => (Dangling, w)
    end.

(** Assigning the fields of an object that exists. *)
Definition write (u : nat) (U : User) : St world unit :=
  fun w =>
    match users w !! u with
    | Some _ => (Normal tt, {| users := <[u := U]> (users w); console := console w |})
    | None => (Dangling, w)
    end.

(** [new]: a fresh reference for an object with the given fields. *)
Definition allocate (U : User) : St world nat :=
  fun w =>
    let u := fresh (dom (users w)) in
    (Normal u, {| users := <[u := U]> (users w); console := console w |}).

(** [console.log(new Date() + ' :: ' + message)]. *)
Definition console_log (message : text number) : St world unit :=
  fun w => (Normal tt, {| users := users w; console := console w ++ [message] |}).

Definition with_balance (U : User) (b : number) : User :=
  {| _id := _id U; name := name U; balance := b |}.

Definition with_name (U : User) (n : string) : User :=
  {| _id := _id U; name := n; balance := balance U |}.

Definition with_id (U : User) (i : string) : User :=
  {| _id := i; name := name U; balance := balance U |}.

End Store.

Global Arguments User : clear implicits.
Global Arguments world : clear implicits.

(** *** Without separation of concerns *)

Module Before.
Section Classes.
Context {number : Type} {arith : Arith number} {compare : Compare number}.

(** [new User(name)]; [id] is what
    [Math.random().toString(36).substring(7)] gives. *)
Definition new_User (id : string) (name : string) : St (world number) nat :=
  let* this := allocate {| _id := ""; name := ""; balance := lit 0 |} in
  (let* U := read this in write this (with_id U id)) ;;;
  (let* U := read this in write this (with_name U name)) ;;;
  st_ret this.

(** [AccountService.log]. *)
Definition log (msg : text number) : St (world number) unit :=
  console_log msg.

(** [AccountService.transfer]; the result [{ user1, user2 }] is the pair
    of the two references. *)
Definition transfer (user1 user2 : nat) (amount : number)
    : St (world number) (nat * nat) :=
  if leb amount (lit 0) then
    log [Chars "amount 0, nothing changed."] ;;;
    st_ret (user1, user2)
  else
    let* U1 := read user1 in
    if ltb (sub (balance U1) amount) (lit 0) then
      (let* U1 := read user1 in
       log [Chars "user "; Chars (_id U1); Chars " did not have enough funds."]) ;;;
      st_ret (user1, user2)
    else
      (let* U1 := read user1 in
       write user1 (with_balance U1 (sub (balance U1) amount))) ;;;
      (let* U2 := read user2 in
       write user2 (with_balance U2 (add (balance U2) amount))) ;;;
      (let* U1 := read user1 in
       log [Chars "User "; Chars (_id U1); Chars " now has "; Digits (balance U1)]) ;;;
      (let* U2 := read user2 in
       log [Chars "User "; Chars (_id U2); Chars " now has "; Digits (balance U2)]) ;;;
      st_ret (user1, user2).

(** [AccountService.updateBalance]. *)
Definition updateBalance (user : nat) (amount : number) : St (world number) nat :=
  (let* U := read user in
   write user (with_balance U (add (balance U) amount))) ;;;
  (let* U := read user in
   log [Chars "User "; Chars (_id U); Chars " now has "; Digits (balance U)]) ;;;
  st_ret user.

End Classes.
End Before.

(** *** With separation of concerns *)

Module After.
Section Classes.
Context {number : Type} {arith : Arith number} {compare : Compare number}.

(** [StringLengthValidator.greaterThan]. A string is the sequence of
    its UTF-16 code units, one character of [string] each, so that
    [String.length value] is [value.length]; this covers the strings
    whose code units are all below 256. *)
Definition greaterThan {S} (value : string) (length : Z) : St S bool :=
  if (length <? Z.of_nat (String.length value))%Z then st_ret true
  else st_throw "String is not long enough.".

(** [LoggerService.log]; its result, the line with the date, is used by
    no caller. *)
Definition log (message : text number) : St (world number) unit :=
  console_log message.

(** The methods of [class User], on the reference [this]. *)
Definition getId (this : nat) : St (world number) string :=
  let* U := read this in st_ret (_id U).

Definition getBalance (this : nat) : St (world number) number :=
  let* U := read this in st_ret (balance U).

Definition setName (this : nat) (name : string) : St (world number) nat :=
  greaterThan name 2 ;;;
  (let* U := read this in write this (with_name U name)) ;;;
  st_ret this.

Definition setBalance (this : nat) (amount : number) : St (world number) nat :=
  (let* U := read this in write this (with_balance U amount)) ;;;
  (let* id := getId this in
   let* b := getBalance this in
   log [Chars "User "; Chars id; Chars " now has "; Digits b]) ;;;
  st_ret this.

(** [new User(name)]; [id] is what [_generateRandomID()] gives. *)
Definition new_User (id : string) (name : string) : St (world number) nat :=
  let* this := allocate {| _id := ""; name := ""; balance := lit 0 |} in
  (let* U := read this in write this (with_id U id)) ;;;
  setName this name ;;;
  st_ret this.

(** [UserBalanceValidator.haveEnoughFunds]. *)
Definition haveEnoughFunds (user : nat) (amount : number) : St (world number) bool :=
  let* b := getBalance user in
  st_ret (ltb (lit 0) (sub b amount)).

(** [AccountService.transfer]. *)
Definition transfer (fromUser toUser : nat) (amount : number)
    : St (world number) (nat * nat) :=
  let* enough := haveEnoughFunds fromUser amount in
  if negb enough then
    (let* id := getId fromUser in
     log [Chars "User "; Chars id; Chars " has not enough funds."]) ;;;
    st_ret (fromUser, toUser)
  else
    (let* b := getBalance fromUser in setBalance fromUser (sub b amount)) ;;;
    (let* b := getBalance toUser in setBalance toUser (add b amount)) ;;;
    st_ret (fromUser, toUser).

(** [AccountService.updateBalance]. *)
Definition updateBalance (user : nat) (amount : number) : St (world number) nat :=
  (let* b := getBalance user in setBalance user (add b amount)) ;;;
  st_ret user.

End Classes.
End After.

End SoC.

(** ** Tokens: the tell-don't-ask example *)

Module TDA.

Section Store.
Context {number : Type}.

(** The fields of [class User]. *)
Record User : Type := {
  _id : string;
  firstName : string;
  lastName : string;
  tokens : number
}.

(** What the program hands to [console.log]: an [Error] that was caught. *)
Inductive printed : Type :=
| Error_object (message : string)
| TypeError_object.

Record world : Type := {
  users : gmap nat User;
  console : list printed
}.

Definition read (u : nat) : St world User :=
  fun w =>
    match users w !! u with
    | Some U => (Normal U, w)
    | None => (Dangling, w)
    end.

Definition write (u : nat) (U : User) : St world unit :=
  fun w =>
    match users w !! u with
    | Some _ => (Normal tt, {| users := <[u := U]> (users w); console := console w |})
    | None => (Dangling, w)
    end.

Definition allocate (U : User) : St world nat :=
  fun w =>
    let u := fresh (dom (users w)) in
    (Normal u, {| users := <[u := U]> (users w); console := console w |}).

Definition console_log (p : printed) : St world unit :=
  fun w => (Normal tt, {| users := users w; console := console w ++ [p] |}).

Definition with_id (U : User) (i : string) : User :=
  {| _id := i; firstName := firstName U; lastName := lastName U; tokens := tokens U |}.

Definition with_firstName (U : User) (n : string) : User :=
  {| _id := _id U; firstName := n; lastName := lastName U; tokens := tokens U |}.

Definition with_lastName (U : User) (n : string) : User :=
  {| _id := _id U; firstName := firstName U; lastName := n; tokens := tokens U |}.

Definition with_tokens (U : User) (t : number) : User :=
  {| _id := _id U; firstName := firstName U; lastName := lastName U; tokens := t |}.

(** A method call on a reference that may be [null]. *)
Definition receiver (user : option nat) : St world nat :=
  fun w =>
    match user with
    | Some u => (Normal u, w)
    | None => (Thrown_TypeError, w)
    end.

End Store.

Global Arguments User : clear implicits.
Global Arguments world : clear implicits.

(** *** Without tell-don't-ask *)

Module Before.
Section Classes.
Context {number : Type} {arith : Arith number} {compare : Compare number}.

(** [String.prototype.toLowerCase], a built-in of the runtime. *)
Variable toLowerCase : string → string.

(** [UserService.register]; [id] is what
    [Math.random().toString(36).substring(7)] gives, and
    [String.length] is [.length], counted in UTF-16 code units. *)
Definition register (id : string) (firstName lastName : string)
    : St (world number) nat :=
  if (String.length firstName <? 3)%nat then st_throw "Name is not long enough."
  else if (String.length lastName <? 3)%nat then st_throw "Name is not long enough"
  else
    let* user :=
      allocate {| _id := ""; firstName := ""; lastName := ""; tokens := lit 0 |} in
    (let* U := read user in write user (with_id U id)) ;;;
    (let* U := read user in write user (with_firstName U (toLowerCase firstName))) ;;;
    (let* U := read user in write user (with_lastName U (toLowerCase lastName))) ;;;
    st_ret user.

(** [UserService.updateTokens]; the operation is a string. *)
Definition updateTokens (user : nat) (operation : string) (amount : number)
    : St (world number) nat :=
  (if String.eqb operation "add" then
     let* U := read user in write user (with_tokens U (add (tokens U) amount))
   else st_ret tt) ;;;
  (if String.eqb operation "sub" then
     let* U := read user in
     if leb (lit 0) (sub (tokens U) amount) then
       let* U := read user in write user (with_tokens U (sub (tokens U) amount))
     else
       let* U := read user in write user (with_tokens U (lit 0))
   else st_ret tt) ;;;
  st_ret user.

End Classes.
End Before.

(** *** With tell-don't-ask *)

Module After.
Section Classes.
Context {number : Type} {arith : Arith number} {compare : Compare number}.

(** [enum operations]. *)
Inductive operations : Type :=
| operations_add
| operations_sub.

(** [StringLengthValidator.greaterThan]. A string is the sequence of
    its UTF-16 code units, one character of [string] each, so that
    [String.length value] is [value.length]; this covers the strings
    whose code units are all below 256. *)
Definition greaterThan {S} (value : string) (length : Z) : St S bool :=
  if (length <? Z.of_nat (String.length value))%Z then st_ret true
  else st_throw "String is not long enough.".

(** [NaturalNumberValidator.operation]. *)
Definition operation (from amount : number) : number :=
  if leb (add from amount) (lit 0) then lit 0 else add from amount.

(** The methods of [class User], on the reference [this]. *)
Definition setFirstName (this : nat) (newFirstName : string) : St (world number) nat :=
  greaterThan newFirstName 3 ;;;
  (let* U := read this in write this (with_firstName U newFirstName)) ;;;
  st_ret this.

Definition setLastName (this : nat) (newLastName : string) : St (world number) nat :=
  greaterThan newLastName 3 ;;;
  (let* U := read this in write this (with_lastName U newLastName)) ;;;
  st_ret this.

Definition User_updateTokens (this : nat) (amount : number) : St (world number) nat :=
  (let* U := read this in write this (with_tokens U (operation (tokens U) amount))) ;;;
  st_ret this.

(** [new User(firstName, lastName)]; [id] is what [_generateRandomID()]
    gives. *)
Definition new_User (id : string) (firstName lastName : string)
    : St (world number) nat :=
  let* this :=
    allocate {| _id := ""; firstName := ""; lastName := ""; tokens := lit 0 |} in
  (let* U := read this in write this (with_id U id)) ;;;
  setFirstName this firstName ;;;
  setLastName this lastName ;;;
  st_ret this.

(** [UserService.register]: [try { user = new User(...) } catch (e)
    { console.log(e) }], then [return user], which is still [null] when
    the constructor threw. *)
Definition register (id : string) (firstName lastName : string)
    : St (world number) (option nat) :=
  fun w =>
    match new_User id firstName lastName w with
    | (Normal user, w') => (Normal (Some user), w')
    | (Thrown message, w') =>
        (console_log (Error_object message) ;;; st_ret None) w'
    | (Thrown_TypeError, w') =>
        (console_log TypeError_object ;;; st_ret None) w'
    | (Dangling, w') => (Dangling, w')
    end.

(** [UserService.updateTokens]. *)
Definition updateTokens (user : option nat) (op : operations) (amount : number)
    : St (world number) nat :=
  let amount :=
    match op with
    | operations_sub => mul amount (lit (-1))
    | operations_add => amount
    end in
  let* this := receiver user in
  User_updateTokens this amount.

End Classes.
End After.

End TDA.

(** ** Payments: the keep-it-simple example *)

Module KISS.

Section Payments.
Context {number : Type} {arith : Arith number} {compare : Compare number}.

(** [String.prototype.toLowerCase], a built-in of the runtime. *)
Variable toLowerCase : string → string.

(** [payup.howmuchtopay]. *)
Definition howmuchtopay (region : string) (amount tax : number) (country : string)
    (price : number) : number :=
  if String.eqb country "pl_PL" then
    if String.eqb region "masovia" || String.eqb region "Lubusz" then
      if ltb (lit 15) amount then
        let price := sub price (mul (div (lit 15) (lit 100)) price) in
        let price := add price (mul (div tax (lit 100)) price) in
        mul price amount
      else mul (add price (mul (div tax (lit 100)) price)) amount
    else mul (add price (mul (div tax (lit 100)) price)) amount
  else mul price amount.

(** [interface Country]. *)
Record Country : Type := {
  code : string;
  discountAmountPercent : number;
  taxAmountPercent : number;
  discountRegions : list string
}.

(** [class Poland]. *)
Definition Poland : Country := {|
  code := "pl_PL";
  discountAmountPercent := lit 15;
  taxAmountPercent := lit 23;
  discountRegions := ["masovia"; "lubusz"]
|}.

(** [Array.prototype.indexOf] on strings: the first position of an equal
    element, or -1. *)
Fixpoint indexOf (elems : list string) (x : string) : Z :=
  match elems with
  | [] => (-1)%Z
  | e :: rest =>
      if String.eqb e x then 0%Z
      else
        let i := indexOf rest x in
        if (i =? -1)%Z then (-1)%Z else (i + 1)%Z
  end.

(** [Payment.setTax], [Payment.setDiscount] and [Payment.pay]. *)
Definition setTax (price tax : number) : number :=
  add price (mul (div tax (lit 100)) price).

Definition setDiscount (price discount : number) : number :=
  sub price (mul (div discount (lit 100)) price).

Definition pay (country : Country) (region : string) (amount nettoPrice : number)
    : number :=
  let nettoPrice :=
    if negb (indexOf (discountRegions country) (toLowerCase region) =? -1)%Z
       && ltb (lit 15) amount
    then setDiscount nettoPrice (discountAmountPercent country)
    else nettoPrice in
  let bruttoPrice := setTax nettoPrice (taxAmountPercent country) in
  mul bruttoPrice amount.

End Payments.

Global Arguments Country : clear implicits.

(** Lower case of the letters A to Z, the part of [toLowerCase] that the
    region names of the example need. *)
Fixpoint lower_ascii (s : string) : string :=
  match s with
  | EmptyString => EmptyString
  | String c rest =>
      let n := Ascii.nat_of_ascii c in
      String
        (if (65 <=? n)%nat && (n <=? 90)%nat then Ascii.ascii_of_nat (n + 32) else c)
        (lower_ascii rest)
  end.

End KISS.

(** ** Days of the week: the don't-repeat-yourself example *)

Module DRY.

Section Weeks.
Context {number : Type} {arith : Arith number}.

(** The fields of [class Day]. *)
Record Day : Type := {
  name : string;
  order : number
}.

(** The [Day] objects, by reference, and the array [days] of the one
    [Week] object. *)
Record world : Type := {
  objects : gmap nat Day;
  days : list nat
}.

(** [new Day(name)]: the parameter [order] takes its default, 0. *)
Definition new_Day (name : string) : St world nat :=
  fun w =>
    let day := fresh (dom (objects w)) in
    (Normal day,
     {| objects := <[day := {| name := name; order := lit 0 |}]> (objects w);
        days := days w |}).

(** [this.days.push(day)] returns the new length of the array. *)
Definition push (day : nat) : St world nat :=
  fun w =>
    (Normal (length (days w ++ [day])),
     {| objects := objects w; days := days w ++ [day] |}).

(** [Day.setOrder]. *)
Definition setOrder (this : nat) (order : number) : St world nat :=
  fun w =>
    match objects w !! this with
    | Some D =>
        (Normal this,
         {| objects := <[this := {| name := name D; order := order |}]> (objects w);
            days := days w |})
    | None => (Dangling, w)
    end.

(** [Week.addDay]. *)
Definition addDay (name : string) : St world nat :=
  let* day := new_Day name in
  let* index := push day in
  setOrder day (lit (Z.of_nat index)) ;;;
  st_ret day.

(** The keys of [enum dayNames], in the order [for ... in] visits them. *)
Definition dayNames : list string :=
  ["Monday"; "Tuesday"; "Wednesday"; "Thursday"; "Friday"; "Saturday"; "Sunday"].

(** The loop of the constructor, over any list of names. *)
Fixpoint addDays (names : list string) : St world unit :=
  match names with
  | [] => st_ret tt
  | dayName :: rest => addDay dayName ;;; addDays rest
  end.

(** [new Week()]: an empty array, then [addDay] for every day name. *)
Definition new_Week : St world unit :=
  fun w => addDays dayNames {| objects := objects w; days := [] |}.

(** Every day of the week has the order of its place in [days], counted
    from 1. *)
Definition ordered (w : world) : Prop :=
  ∀ (i day : nat), days w !! i = Some day →
    ∃ D, objects w !! day = Some D ∧ order D = lit (Z.of_nat (i + 1)).

(** The names of the days of the week, in the order of [days]. *)
Definition names_of (w : world) : list (option string) :=
  map (fun day => option_map name (objects w !! day)) (days w).

End Weeks.

Global Arguments Day : clear implicits.
Global Arguments world : clear implicits.

End DRY.

(** ** Evaluation lemmas *)

Section Evaluation.
Context {number : Type} {arith : Arith number}.

Abbreviation value := (value number).
Abbreviation M := (M number).

Lemma call_closure (n : nat) (c : closure number) (this : value) (args : list value) :
  call (S n) (VClo c) this args = body (call n) c this args.
Proof. reflexivity. Qed.

Lemma call_not_function (n : nat) (f this : value) (args : list value) :
  (∀ c, f ≠ VClo c) → call n f this args = throw TypeError.
Proof.
  intros Hf. destruct f; try (destruct n; reflexivity).
  now destruct (Hf c).
Qed.

(** What the three kinds of shape answer to [area()] and [calculate()]. *)
Lemma area_circle (r : number) (k : nat) (g : globals number) :
  call_method (2 + k) (VObj (circle (VNum r))) "area" [] g
  = (Return (VNum (mul Math_PI (Math_pow r 2))), g).
Proof. reflexivity. Qed.

Lemma area_square (s : number) (k : nat) (g : globals number) :
  call_method (2 + k) (VObj (square (VNum s))) "area" [] g
  = (Return (VNum (Math_pow s 2)), g).
Proof. reflexivity. Qed.

Lemma area_cubo (s : number) (k : nat) (g : globals number) :
  call_method (2 + k) (VObj (cubo (VNum s))) "area" [] g
  = (Return (VNum (Math_pow s 2)), g).
Proof. reflexivity. Qed.

Lemma calculate_build (d : shape_desc number) (k : nat) (g : globals number) :
  call_method (4 + k) (build d) "calculate" [] g
  = (Return (VNum (contribution d)), g).
Proof. destruct d; reflexivity. Qed.

(** The loop of [sum] over factory-made shapes collects their
    contributions and leaves the last shape in the global [shape]. *)
Lemma for_of_build (k : nat) (ds : list (shape_desc number)) :
  ∀ (area : list value) (g : globals number),
    for_of (map build ds) area (sum_loop (call (4 + k))) g
    = (Return (area ++ map (λ d, VNum (contribution d)) ds),
       visited g (map build ds)).
Proof.
  induction ds as [|d ds IH]; intros area g.
  - simpl. now rewrite app_nil_r.
  - change (for_of (map build (d :: ds)) area (sum_loop (call (4 + k))) g)
      with (match sum_loop (call (4 + k)) (build d) area g with
            | (Return a, g') => for_of (map build ds) a (sum_loop (call (4 + k))) g'
            | (Throw e, g') => (Throw e, g')
            | (Unsupported, g') => (Unsupported, g')
            | (OutOfFuel, g') => (OutOfFuel, g')
            end).
    assert (Hturn : sum_loop (call (4 + k)) (build d) area g
                    = (Return (area ++ [VNum (contribution d)]),
                       <["shape" := build d]> g)).
    { unfold sum_loop, bind, set_global.
      change (method_call (call (4 + k)) (build d) "calculate" [])
        with (call_method (4 + k) (build d) "calculate" []).
      now rewrite calculate_build. }
    rewrite Hturn, IH. simpl. now rewrite <- app_assoc.
Qed.

Lemma reduce_numbers (cs : list number) :
  ∀ (init : number) (g : globals number),
    reduce (λ v c, js_add c v) (VNum init) (map VNum cs) g
    = (Return (VNum (accumulate init cs)), g).
Proof.
  induction cs as [|c cs IH]; intros init g; [reflexivity|].
  simpl. unfold bind. simpl. apply IH.
Qed.

(** [sum()] on a calculator reads only [this.shapes]. *)
Lemma sum_body (n : nat) (calculator : object number) (s : value) (g : globals number) :
  lookup_chain calculator "sum" = VClo areaCalculator_sum →
  lookup_chain calculator "shapes" = s →
  sum (S n) calculator g
  = (let! elems := iterate s in
     let! area := for_of elems [] (sum_loop (call n)) in
     reduce (λ v c, js_add c v) (VNum (lit 0)) area) g.
Proof.
  intros Hsum Hshapes.
  unfold sum, call_method, method_call, get_prop, bind at 1, ret at 1.
  rewrite Hsum, call_closure. unfold body, receiver, get_prop, bind at 1, ret at 1.
  unfold bind at 1, ret at 1. now rewrite Hshapes.
Qed.

Lemma areaCalculator_props (s : value) :
  lookup_chain (areaCalculator s) "sum" = VClo areaCalculator_sum
  ∧ lookup_chain (areaCalculator s) "shapes" = s.
Proof. split; reflexivity. Qed.

Lemma volumeCalculator_props (s : value) :
  lookup_chain (volumeCalculator s) "sum" = VClo areaCalculator_sum
  ∧ lookup_chain (volumeCalculator s) "shapes" = s.
Proof. split; reflexivity. Qed.

(** The total of a calculator that holds factory-made shapes. *)
Lemma sum_build (calculator : object number) (ds : list (shape_desc number))
    (k : nat) (g : globals number) :
  lookup_chain calculator "sum" = VClo areaCalculator_sum →
  lookup_chain calculator "shapes" = VArr (map build ds) →
  sum (5 + k) calculator g
  = (Return (VNum (accumulate (lit 0) (map contribution ds))),
     visited g (map build ds)).
Proof.
  intros Hsum Hshapes.
  change (5 + k) with (S (4 + k)). rewrite (sum_body _ _ _ _ Hsum Hshapes).
  unfold iterate, bind at 1, ret at 1. unfold bind at 1.
  rewrite for_of_build. simpl app.
  rewrite <- (map_map contribution VNum). apply reduce_numbers.
Qed.

Lemma visited_other (elems : list value) :
  ∀ (g : globals number) (x : string),
    x ≠ "shape" → visited g elems !! x = g !! x.
Proof.
  induction elems as [|e elems IH]; intros g x Hx; [reflexivity|].
  unfold visited. simpl. fold (visited (<["shape" := e]> g) elems).
  rewrite IH by assumption. apply lookup_insert_ne. congruence.
Qed.

End Evaluation.

(** ** Exact arithmetic *)

(** Over the reals the accumulation of [reduce] is the usual sum, whatever
    the order. *)
Lemma accumulate_Rsum (cs : list R) :
  ∀ init : R, accumulate init cs = (init + Rsum cs)%R.
Proof.
  induction cs as [|c cs IH]; intros init; simpl.
  - unfold accumulate. simpl. lra.
  - unfold accumulate in *. simpl. rewrite IH. simpl. lra.
Qed.

Lemma Rsum_app (xs ys : list R) : Rsum (xs ++ ys) = (Rsum xs + Rsum ys)%R.
Proof.
  induction xs as [|x xs IH]; simpl; [lra|]. rewrite IH. lra.
Qed.

(** ** The aggregator *)

(** C1: for every sequence of shapes made by [circle], [square] and [cubo],
    [sum()] returns the sum of what each element's [calculate()] returns:
    in any arithmetic it is the accumulation of those numbers from 0 in
    sequence order, and over the reals that is their sum. Aggregating
    [[circle(2), square(5), square(6)]] gives 4π + 25 + 36, both over the
    reals and in binary64. *)
Theorem sum_adds_each_calculate :
  (∀ (number : Type) (arith : Arith number) (ds : list (shape_desc number))
     (k : nat) (g : globals number),
     ∃ cs : list number,
       Forall2
         (λ d c, ∀ g', call_method (4 + k) (build d) "calculate" [] g'
                       = (Return (VNum c), g'))
         ds cs
       ∧ fst (sum (5 + k) (areaCalculator (VArr (map build ds))) g)
         = Return (VNum (accumulate (lit 0) cs)))
  ∧ (∀ (ds : list (shape_desc R)) (k : nat) (g : globals R),
       ∃ cs : list R,
         Forall2
           (λ d c, ∀ g', call_method (4 + k) (build d) "calculate" [] g'
                         = (Return (VNum c), g'))
           ds cs
         ∧ fst (sum (5 + k) (areaCalculator (VArr (map build ds))) g)
           = Return (VNum (Rsum cs)))
  ∧ (∀ (k : nat) (g : globals R),
       fst (sum (5 + k)
              (areaCalculator
                 (VArr [VObj (circle (VNum 2%R)); VObj (square (VNum 5%R));
                        VObj (square (VNum 6%R))])) g)
       = Return (VNum (4 * PI + 25 + 36)%R))
  ∧ fst (sum 5
           (areaCalculator
              (VArr [VObj (circle (VNum (lit 2))); VObj (square (VNum (lit 5)));
                     VObj (square (VNum (lit 6)))])) (∅ : globals float))
    = Return (VNum (add (add (mul (lit 4) Math_PI) (lit 25)) (lit 36))).
Proof.
  assert (Hgen : ∀ (number : Type) (arith : Arith number)
                   (ds : list (shape_desc number)) (k : nat) (g : globals number),
             Forall2
               (λ d c, ∀ g', call_method (4 + k) (build d) "calculate" [] g'
                             = (Return (VNum c), g'))
               ds (map contribution ds)
             ∧ fst (sum (5 + k) (areaCalculator (VArr (map build ds))) g)
               = Return (VNum (accumulate (lit 0) (map contribution ds)))).
  { intros number arith ds k g. split.
    - induction ds as [|d ds IH]; constructor; [|exact IH].
      intros g'. apply calculate_build.
    - destruct (areaCalculator_props (VArr (map build ds))) as [Hs Hsh].
      now rewrite (sum_build _ ds k g Hs Hsh). }
  split; [|split; [|split]].
  - intros number arith ds k g. exists (map contribution ds). apply Hgen.
  - intros ds k g. exists (map contribution ds).
    destruct (Hgen R real_arith ds k g) as [Hcs Hsum]. split; [exact Hcs|].
    rewrite Hsum, accumulate_Rsum. simpl. do 2 f_equal. lra.
  - intros k g.
    destruct (Hgen R real_arith [Circle 2%R; Square 5%R; Square 6%R] k g)
      as [_ Hsum].
    simpl map in Hsum. rewrite Hsum. do 2 f_equal.
    unfold accumulate. simpl. lra.
  - vm_compute. reflexivity.
Qed.

(** C3: aggregating the empty sequence returns exactly 0. *)
Theorem sum_of_nothing :
  ∀ (number : Type) (arith : Arith number) (k : nat) (g : globals number),
    sum (1 + k) (areaCalculator (VArr [])) g = (Return (VNum (lit 0)), g).
Proof. intros number arith k g. reflexivity. Qed.

(** C9: [volumeCalculator] inherits [sum] unchanged, so on every argument
    [s] (a sequence of shapes or anything else), with every call budget
    and from every state, [volumeCalculator(s).sum()] does exactly what
    [areaCalculator(s).sum()] does; on shapes made by the factories both
    return the total. *)
Theorem volumeCalculator_substitutable :
  ∀ (number : Type) (arith : Arith number),
    (∀ (s : value number) (fuel : nat) (g : globals number),
       sum fuel (volumeCalculator s) g = sum fuel (areaCalculator s) g)
    ∧ (∀ s : value number,
         lookup_chain (volumeCalculator s) "sum"
         = lookup_chain (areaCalculator s) "sum")
    ∧ (∀ (ds : list (shape_desc number)) (k : nat) (g : globals number),
         fst (sum (5 + k) (volumeCalculator (VArr (map build ds))) g)
         = Return (VNum (accumulate (lit 0) (map contribution ds)))
         ∧ fst (sum (5 + k) (areaCalculator (VArr (map build ds))) g)
           = Return (VNum (accumulate (lit 0) (map contribution ds)))).
Proof.
  intros number arith. split; [|split].
  - intros s [|n] g; [reflexivity|].
    destruct (areaCalculator_props s) as [Ha Hb].
    destruct (volumeCalculator_props s) as [Hc Hd].
    now rewrite (sum_body n _ s g Ha Hb), (sum_body n _ s g Hc Hd).
  - intros s. reflexivity.
  - intros ds k g.
    destruct (areaCalculator_props (VArr (map build ds))) as [Ha Hb].
    destruct (volumeCalculator_props (VArr (map build ds))) as [Hc Hd].
    now rewrite (sum_build _ ds k g Ha Hb), (sum_build _ ds k g Hc Hd).
Qed.

(** ** The shapes *)

(** C5: a cube contributes its area combined with its volume,
    [cubo(s).calculate() = s² + s³]; a flat shape contributes its area:
    [calculate()] and [area()] of a circle, and of a square, are the same
    call outcome, π·r² and s². *)
Theorem calculate_of_each_shape :
  ∀ (number : Type) (arith : Arith number) (x : number) (k : nat)
    (g : globals number),
    call_method (4 + k) (VObj (cubo (VNum x))) "calculate" [] g
    = (Return (VNum (add (Math_pow x 2) (Math_pow x 3))), g)
    ∧ call_method (4 + k) (VObj (circle (VNum x))) "calculate" [] g
      = call_method (4 + k) (VObj (circle (VNum x))) "area" [] g
    ∧ call_method (4 + k) (VObj (circle (VNum x))) "calculate" [] g
      = (Return (VNum (mul Math_PI (Math_pow x 2))), g)
    ∧ call_method (4 + k) (VObj (square (VNum x))) "calculate" [] g
      = call_method (4 + k) (VObj (square (VNum x))) "area" [] g
    ∧ call_method (4 + k) (VObj (square (VNum x))) "calculate" [] g
      = (Return (VNum (Math_pow x 2)), g).
Proof. intros number arith x k g. repeat split; reflexivity. Qed.

(** C2: [circle(r).area()] is π·r², [square(s).area()] is s² and
    [cubo(s).area()] is s². The cube's volume s³ is computed by the
    solid-shape interface that [calculate()] captures, but the object
    [cubo(s)] returns has no [volume] property, on itself or on its
    prototype chain: [cubo(s).volume()] throws a [TypeError]. *)
Theorem area_and_volume_of_each_shape :
  ∀ (number : Type) (arith : Arith number) (x : number) (k : nat)
    (g : globals number),
    call_method (2 + k) (VObj (circle (VNum x))) "area" [] g
    = (Return (VNum (mul Math_PI (Math_pow x 2))), g)
    ∧ call_method (2 + k) (VObj (square (VNum x))) "area" [] g
      = (Return (VNum (Math_pow x 2)), g)
    ∧ call_method (2 + k) (VObj (cubo (VNum x))) "area" [] g
      = (Return (VNum (Math_pow x 2)), g)
    ∧ (∃ basics complex : object number,
         lookup_chain (cubo (VNum x)) "calculate"
         = VClo (manageShapeInterface_calculate
                   (VClo (cubo_abstraccion (VObj basics) (VObj complex))))
         ∧ call_method (2 + k) (VObj complex) "volume" [] g
           = (Return (VNum (Math_pow x 3)), g))
    ∧ lookup_chain (cubo (VNum x)) "volume" = VUndef
    ∧ call_method k (VObj (cubo (VNum x))) "volume" [] g = (Throw TypeError, g).
Proof.
  intros number arith x k g. repeat split; try reflexivity.
  - eexists. eexists. split; reflexivity.
  - unfold call_method, method_call, get_prop, bind, ret.
    change (lookup_chain (cubo (VNum x)) "volume") with (@VUndef number).
    now rewrite call_not_function.
Qed.

(** C8: no factory and no computation looks at the sign of a dimension:
    for every number [r], zero and negative ones included, [circle(r)],
    [square(r)] and [cubo(r)] are objects whose [area()] and
    [calculate()] return a number. The volume is another matter, for a
    reason that has nothing to do with [r]: the object [cubo(r)] has no
    [volume] function, so [cubo(r).volume()] throws a [TypeError] for
    every [r]. *)
Theorem dimensions_are_not_validated :
  (∀ (number : Type) (arith : Arith number) (r : number) (k : nat)
     (g : globals number),
     (∃ a c : number,
        call_method (2 + k) (VObj (circle (VNum r))) "area" [] g
        = (Return (VNum a), g)
        ∧ call_method (4 + k) (VObj (circle (VNum r))) "calculate" [] g
          = (Return (VNum c), g))
     ∧ (∃ a c : number,
          call_method (2 + k) (VObj (square (VNum r))) "area" [] g
          = (Return (VNum a), g)
          ∧ call_method (4 + k) (VObj (square (VNum r))) "calculate" [] g
            = (Return (VNum c), g))
     ∧ (∃ a c : number,
          call_method (2 + k) (VObj (cubo (VNum r))) "area" [] g
          = (Return (VNum a), g)
          ∧ call_method (4 + k) (VObj (cubo (VNum r))) "calculate" [] g
            = (Return (VNum c), g))
     ∧ call_method k (VObj (cubo (VNum r))) "volume" [] g = (Throw TypeError, g))
  ∧ (∀ (k : nat) (g : globals R),
       call_method (2 + k) (VObj (circle (VNum (-1)%R))) "area" [] g
       = (Return (VNum PI), g)
       ∧ call_method (2 + k) (VObj (square (VNum 0%R))) "area" [] g
         = (Return (VNum 0%R), g)
       ∧ call_method (4 + k) (VObj (cubo (VNum (-2)%R))) "calculate" [] g
         = (Return (VNum (-4)%R), g)
       ∧ call_method k (VObj (cubo (VNum (-3)%R))) "volume" [] g
         = (Throw TypeError, g)
       ∧ call_method k (VObj (cubo (VNum 0%R))) "volume" [] g
         = (Throw TypeError, g)).
Proof.
  assert (Hvolume : ∀ (number : Type) (arith : Arith number) (r : number) (k : nat)
                      (g : globals number),
             call_method k (VObj (cubo (VNum r))) "volume" [] g
             = (Throw TypeError, g)).
  { intros number arith r k g.
    unfold call_method, method_call, get_prop, bind, ret.
    change (lookup_chain (cubo (VNum r)) "volume") with (@VUndef number).
    now rewrite call_not_function. }
  split.
  - intros number arith r k g.
    split; [|split; [|split]];
      try (eexists; eexists; split; reflexivity).
    apply Hvolume.
  - intros k g. split; [|split; [|split; [|split]]].
    + rewrite area_circle. do 3 f_equal. cbn. lra.
    + rewrite area_square. do 3 f_equal. cbn. lra.
    + rewrite (calculate_build (Cubo (-2)%R)). do 3 f_equal. cbn. lra.
    + apply Hvolume.
    + apply Hvolume.
Qed.

(** ** Elements that are not shapes *)

Section Failure.
Context {number : Type} {arith : Arith number}.

(** A turn of the loop on an element without a [calculate] function
    throws, after the element was assigned to [shape]. *)
Lemma sum_loop_throws (n : nat) (bad : value number) (area : list (value number))
    (g : globals number) :
  has_method bad "calculate" = false →
  sum_loop (call n) bad area g = (Throw TypeError, <["shape" := bad]> g).
Proof.
  intros Hbad. unfold sum_loop, set_global, method_call, bind.
  destruct bad as [| |x|t|elems|c|o]; simpl in *; try reflexivity;
    try (unfold ret; now rewrite call_not_function).
  unfold ret. destruct (lookup_chain o "calculate"); try discriminate;
    now rewrite call_not_function.
Qed.

Lemma for_of_throws (k : nat) (bad : value number) (rest : list (value number))
    (ds : list (shape_desc number)) :
  has_method bad "calculate" = false →
  ∀ (area : list (value number)) (g : globals number),
    for_of (map build ds ++ bad :: rest) area (sum_loop (call (4 + k))) g
    = (Throw TypeError, <["shape" := bad]> (visited g (map build ds))).
Proof.
  intros Hbad. induction ds as [|d ds IH]; intros area g.
  - change (for_of (map build [] ++ bad :: rest) area (sum_loop (call (4 + k))) g)
      with (match sum_loop (call (4 + k)) bad area g with
            | (Return a, g') => for_of rest a (sum_loop (call (4 + k))) g'
            | (Throw e, g') => (Throw e, g')
            | (Unsupported, g') => (Unsupported, g')
            | (OutOfFuel, g') => (OutOfFuel, g')
            end).
    now rewrite sum_loop_throws.
  - change (for_of (map build (d :: ds) ++ bad :: rest) area
              (sum_loop (call (4 + k))) g)
      with (match sum_loop (call (4 + k)) (build d) area g with
            | (Return a, g') =>
                for_of (map build ds ++ bad :: rest) a (sum_loop (call (4 + k))) g'
            | (Throw e, g') => (Throw e, g')
            | (Unsupported, g') => (Unsupported, g')
            | (OutOfFuel, g') => (OutOfFuel, g')
            end).
    assert (Hturn : sum_loop (call (4 + k)) (build d) area g
                    = (Return (area ++ [VNum (contribution d)]),
                       <["shape" := build d]> g)).
    { unfold sum_loop, bind, set_global.
      change (method_call (call (4 + k)) (build d) "calculate" [])
        with (call_method (4 + k) (build d) "calculate" []).
      now rewrite calculate_build. }
    rewrite Hturn. apply IH.
Qed.

End Failure.

(** C4: when the sequence holds an element without a [calculate] function
    (a number, a string, [undefined], [null], an object that lacks the
    property or holds something else there), [sum()] throws a [TypeError]:
    it returns no total. The loop stops at that element, which is the
    last value assigned to [shape]; the elements after it are never
    looked at. *)
Theorem sum_fails_fast_on_non_shape :
  ∀ (number : Type) (arith : Arith number) (ds : list (shape_desc number))
    (bad : value number) (rest : list (value number)) (k : nat)
    (g : globals number),
    has_method bad "calculate" = false →
    sum (5 + k) (areaCalculator (VArr (map build ds ++ bad :: rest))) g
    = (Throw TypeError, <["shape" := bad]> (visited g (map build ds))).
Proof.
  intros number arith ds bad rest k g Hbad.
  destruct (areaCalculator_props (VArr (map build ds ++ bad :: rest))) as [Hs Hsh].
  change (5 + k) with (S (4 + k)). rewrite (sum_body _ _ _ _ Hs Hsh).
  unfold iterate, bind at 1, ret at 1. unfold bind at 1.
  now rewrite for_of_throws.
Qed.

(** The same at [[square(5), 7, square(6)]] over the reals. *)
Lemma sum_fails_fast_on_non_shape_witness :
  has_method (VNum 7%R) "calculate" = false
  ∧ sum 5 (areaCalculator
             (VArr (map build [Square 5%R] ++ VNum 7%R :: [VObj (square (VNum 6%R))])))
      (∅ : globals R)
    = (Throw TypeError, <["shape" := VNum 7%R]> (visited ∅ (map build [Square 5%R]))).
Proof.
  split; [reflexivity|].
  apply (sum_fails_fast_on_non_shape R real_arith [Square 5%R] (VNum 7%R)
           [VObj (square (VNum 6%R))] 0 ∅).
  reflexivity.
Defined.

(** ** The presenter *)

Section Presenter.
Context {number : Type} {arith : Arith number}.

Lemma outputter_calls_sum (n : nat) (meth : string) (c : closure number)
    (calculator : object number) (g : globals number) :
  lookup_chain (sumCalculatorOputter (VObj calculator)) meth = VClo c →
  call_method (S n) (VObj (sumCalculatorOputter (VObj calculator))) meth [] g
  = body (call n) c (VObj (sumCalculatorOputter (VObj calculator))) [] g.
Proof.
  intros Hm. unfold call_method, method_call, get_prop, bind, ret.
  now rewrite Hm.
Qed.

Lemma JSON_build (calculator : object number) (ds : list (shape_desc number))
    (k : nat) (g : globals number) :
  lookup_chain calculator "sum" = VClo areaCalculator_sum →
  lookup_chain calculator "shapes" = VArr (map build ds) →
  call_method (6 + k) (VObj (sumCalculatorOputter (VObj calculator))) "JSON" [] g
  = (Return (VStr [JSON_digits (accumulate (lit 0) (map contribution ds))]),
     visited g (map build ds)).
Proof.
  intros Hsum Hshapes. change (6 + k) with (S (5 + k)).
  rewrite (outputter_calls_sum _ _ outputter_JSON) by reflexivity.
  unfold body, receiver. unfold bind at 1, ret at 1.
  unfold get_prop at 1. unfold bind at 1, ret at 1.
  change (lookup_chain (sumCalculatorOputter (VObj calculator)) "calculator")
    with (VObj calculator).
  unfold bind at 1.
  change (method_call (call (5 + k)) (VObj calculator) "sum" [])
    with (sum (5 + k) calculator).
  now rewrite (sum_build _ ds k g Hsum Hshapes).
Qed.

Lemma HTML_build (calculator : object number) (ds : list (shape_desc number))
    (k : nat) (g : globals number) :
  lookup_chain calculator "sum" = VClo areaCalculator_sum →
  lookup_chain calculator "shapes" = VArr (map build ds) →
  call_method (6 + k) (VObj (sumCalculatorOputter (VObj calculator))) "HTML" [] g
  = (Return (VStr [Chars HTML_before;
                   Digits (accumulate (lit 0) (map contribution ds));
                   Chars HTML_after]),
     visited g (map build ds)).
Proof.
  intros Hsum Hshapes. change (6 + k) with (S (5 + k)).
  rewrite (outputter_calls_sum _ _ outputter_HTML) by reflexivity.
  unfold body, receiver. unfold bind at 1, ret at 1.
  unfold get_prop at 1. unfold bind at 1, ret at 1.
  change (lookup_chain (sumCalculatorOputter (VObj calculator)) "calculator")
    with (VObj calculator).
  unfold bind at 1.
  change (method_call (call (5 + k)) (VObj calculator) "sum" [])
    with (sum (5 + k) calculator).
  now rewrite (sum_build _ ds k g Hsum Hshapes).
Qed.

Lemma HAML_JADE (a : value number) (k : nat) (g : globals number) :
  call_method (1 + k) (VObj (sumCalculatorOputter a)) "HAML" [] g
  = (Return (str "HAML format output"), g)
  ∧ call_method (1 + k) (VObj (sumCalculatorOputter a)) "JADE" [] g
    = (Return (str "JADE format output"), g).
Proof. split; reflexivity. Qed.

End Presenter.

(** ** Effects *)

Section Effects.
Context {number : Type} {arith : Arith number}.

(** The loop of [sum()] leaves its last element in the global [shape]. *)
Lemma visited_last (g : globals number) (ds : list (shape_desc number))
    (d : shape_desc number) :
  visited g (map build (ds ++ [d])) !! "shape" = Some (build d).
Proof.
  unfold visited. rewrite map_app, fold_left_app. simpl. apply lookup_insert_eq.
Qed.

(** A call that ends with a value in [shape] is not pure. *)
Lemma writes_shape_not_pure (m : M number (value number)) (v v' last : value number)
    (elems : list (value number)) :
  (∀ g, visited g elems !! "shape" = Some last) →
  (∀ g, m g = (Return v, visited g elems)) →
  ¬ pure_call m v'.
Proof.
  intros Hlast Hm Hpure.
  specialize (Hm ∅). rewrite (Hpure ∅) in Hm.
  specialize (Hlast ∅).
  replace (visited (∅ : globals number) elems) with (∅ : globals number) in Hlast
    by congruence.
  rewrite lookup_empty in Hlast. discriminate.
Qed.

End Effects.

(** C7: [area()] and [calculate()] of a shape, [HAML()], [JADE()] and
    [sum()] of an empty sequence are pure: the same value from every
    state of the global variables, and no variable changed. [sum()] of a
    sequence that is not empty is not: its loop variable [shape] is not
    declared, so every turn assigns the global variable of that name,
    which holds the last element after the call; [JSON()] and [HTML()]
    call [sum()] and write it too. These three still return the same
    value from every state. *)
Theorem sum_writes_the_global_shape :
  (∀ (number : Type) (arith : Arith number) (ds : list (shape_desc number))
     (d : shape_desc number) (k : nat),
     let elems := map build (ds ++ [d]) in
     let total := accumulate (lit 0) (map contribution (ds ++ [d])) in
     let output :=
       VObj (sumCalculatorOputter (VObj (areaCalculator (VArr elems)))) in
     (∀ d' : shape_desc number,
        (∃ a, pure_call (call_method (2 + k) (build d') "area" []) (VNum a))
        ∧ pure_call (call_method (4 + k) (build d') "calculate" [])
            (VNum (contribution d')))
     ∧ pure_call (call_method (1 + k) output "HAML" []) (str "HAML format output")
     ∧ pure_call (call_method (1 + k) output "JADE" []) (str "JADE format output")
     ∧ pure_call (sum (1 + k) (areaCalculator (VArr []))) (VNum (lit 0))
     ∧ (∀ g, sum (5 + k) (areaCalculator (VArr elems)) g
             = (Return (VNum total), visited g elems))
     ∧ (∀ g, sum (5 + k) (volumeCalculator (VArr elems)) g
             = (Return (VNum total), visited g elems))
     ∧ (∀ g, call_method (6 + k) output "JSON" [] g
             = (Return (VStr [JSON_digits total]), visited g elems))
     ∧ (∀ g, call_method (6 + k) output "HTML" [] g
             = (Return (VStr [Chars HTML_before; Digits total; Chars HTML_after]),
                visited g elems))
     ∧ (∀ g, visited g elems !! "shape" = Some (build d))
     ∧ (∀ v, ¬ pure_call (sum (5 + k) (areaCalculator (VArr elems))) v)
     ∧ (∀ v, ¬ pure_call (sum (5 + k) (volumeCalculator (VArr elems))) v)
     ∧ (∀ v, ¬ pure_call (call_method (6 + k) output "JSON" []) v)
     ∧ (∀ v, ¬ pure_call (call_method (6 + k) output "HTML" []) v))
  ∧ (∅ : globals float) !! "shape" = None
  ∧ snd (sum 5 (areaCalculator (VArr [VObj (square (VNum (lit 5)))]))
           (∅ : globals float)) !! "shape"
    = Some (VObj (square (VNum (lit 5)))).
Proof.
  split; [|split; [reflexivity|]].
  - intros number arith ds d k elems total output.
    destruct (areaCalculator_props (VArr elems)) as [Ha Hb].
    destruct (volumeCalculator_props (VArr elems)) as [Hc Hd].
    assert (Hlast : ∀ g, visited g elems !! "shape" = Some (build d))
      by (intros g; apply visited_last).
    assert (Hsum : ∀ g, sum (5 + k) (areaCalculator (VArr elems)) g
                        = (Return (VNum total), visited g elems))
      by (intros g; exact (sum_build _ (ds ++ [d]) k g Ha Hb)).
    assert (Hvol : ∀ g, sum (5 + k) (volumeCalculator (VArr elems)) g
                        = (Return (VNum total), visited g elems))
      by (intros g; exact (sum_build _ (ds ++ [d]) k g Hc Hd)).
    assert (HJSON : ∀ g, call_method (6 + k) output "JSON" [] g
                         = (Return (VStr [JSON_digits total]), visited g elems))
      by (intros g; exact (JSON_build _ (ds ++ [d]) k g Ha Hb)).
    assert (HHTML : ∀ g, call_method (6 + k) output "HTML" [] g
                         = (Return (VStr [Chars HTML_before; Digits total;
                                          Chars HTML_after]),
                            visited g elems))
      by (intros g; exact (HTML_build _ (ds ++ [d]) k g Ha Hb)).
    repeat match goal with |- _ ∧ _ => split end.
    + intros d'. split.
      * destruct d'; eexists; intros g; reflexivity.
      * intros g. apply calculate_build.
    + intros g. exact (proj1 (HAML_JADE _ k g)).
    + intros g. exact (proj2 (HAML_JADE _ k g)).
    + intros g. reflexivity.
    + exact Hsum.
    + exact Hvol.
    + exact HJSON.
    + exact HHTML.
    + exact Hlast.
    + intros v. exact (writes_shape_not_pure _ _ v _ _ Hlast Hsum).
    + intros v. exact (writes_shape_not_pure _ _ v _ _ Hlast Hvol).
    + intros v. exact (writes_shape_not_pure _ _ v _ _ Hlast HJSON).
    + intros v. exact (writes_shape_not_pure _ _ v _ _ Hlast HHTML).
  - vm_compute. reflexivity.
Qed.

(** ** Concatenation *)

(** C10, as stated, fails in binary64: with [xs = [square(1e8)]] and
    [ys = [square(1), square(1)]] the total of [xs ++ ys] is 1e16, because
    adding 1 to 1e16 rounds back to 1e16 twice, while the total of [xs]
    plus the total of [ys] is 1e16 + 2 = 10000000000000002. *)
Lemma sum_of_concatenation_binary64 :
  let xs := [Square (lit 100000000)] in
  let ys := [Square (lit 1); Square (lit 1)] in
  fst (sum 5 (areaCalculator (VArr (map build (xs ++ ys)))) (∅ : globals float))
  = Return (VNum 1e16%float)
  ∧ fst (sum 5 (areaCalculator (VArr (map build xs))) (∅ : globals float))
    = Return (VNum 1e16%float)
  ∧ fst (sum 5 (areaCalculator (VArr (map build ys))) (∅ : globals float))
    = Return (VNum 2%float)
  ∧ add 1e16%float 2%float = 10000000000000002%float
  ∧ PrimFloat.eqb 1e16%float (add 1e16%float 2%float) = false.
Proof. vm_compute. repeat split; reflexivity. Qed.

(** C10, amended: over the reals the total of [xs ++ ys] is the total of
    [xs] plus the total of [ys]. In any arithmetic, binary64 included,
    the total of [xs ++ ys] is what the accumulation gives when it goes
    on from the total of [xs] through the contributions of [ys]. *)
Theorem sum_of_concatenation :
  (∀ (xs ys : list (shape_desc R)) (k : nat) (g : globals R),
     ∃ a b : R,
       fst (sum (5 + k) (areaCalculator (VArr (map build xs))) g) = Return (VNum a)
       ∧ fst (sum (5 + k) (areaCalculator (VArr (map build ys))) g) = Return (VNum b)
       ∧ fst (sum (5 + k) (areaCalculator (VArr (map build (xs ++ ys)))) g)
         = Return (VNum (a + b)%R))
  ∧ (∀ (number : Type) (arith : Arith number) (xs ys : list (shape_desc number))
       (k : nat) (g : globals number),
       ∃ a : number,
         fst (sum (5 + k) (areaCalculator (VArr (map build xs))) g) = Return (VNum a)
         ∧ fst (sum (5 + k) (areaCalculator (VArr (map build (xs ++ ys)))) g)
           = Return (VNum (accumulate a (map contribution ys)))).
Proof.
  assert (Hsum : ∀ (number : Type) (arith : Arith number)
                   (ds : list (shape_desc number)) (k : nat) (g : globals number),
             fst (sum (5 + k) (areaCalculator (VArr (map build ds))) g)
             = Return (VNum (accumulate (lit 0) (map contribution ds)))).
  { intros number arith ds k g.
    destruct (areaCalculator_props (VArr (map build ds))) as [Hs Hsh].
    now rewrite (sum_build _ ds k g Hs Hsh). }
  split.
  - intros xs ys k g.
    exists (accumulate (lit 0) (map contribution xs)),
           (accumulate (lit 0) (map contribution ys)).
    rewrite !Hsum. repeat split. do 2 f_equal.
    rewrite !accumulate_Rsum, map_app, Rsum_app. simpl. lra.
  - intros number arith xs ys k g.
    exists (accumulate (lit 0) (map contribution xs)).
    rewrite !Hsum. split; [reflexivity|]. do 2 f_equal.
    unfold accumulate. now rewrite map_app, fold_left_app.
Qed.

(** ** The script *)

(** The five lines the script prints: the total 4π + 25 + 36 of the three
    flat shapes (73.56637061435917 in binary64) as JSON and inside the HTML
    text, the two fixed texts,
    and for the cube of side 4 the total 16 + 64 = 80. *)
Example script_prints :
  Script.printed Script.output "JSON" = Return (VStr [JSON_digits 0x1.2643f6a8885a3p+6%float])
  ∧ Script.printed Script.output "HAML" = Return (str "HAML format output")
  ∧ Script.printed Script.output "HTML"
    = Return (VStr [Chars HTML_before; Digits 0x1.2643f6a8885a3p+6%float;
                    Chars HTML_after])
  ∧ Script.printed Script.output2 "HTML"
    = Return (VStr [Chars HTML_before; Digits 80%float; Chars HTML_after])
  ∧ Script.printed Script.output "JADE" = Return (str "JADE format output").
Proof. vm_compute. repeat split; reflexivity. Qed.

(** ** Further properties of the aggregator and the presenter *)

Section MoreEvaluation.
Context {number : Type} {arith : Arith number}.

(** [sum()] when the loop meets an element without [calculate], for any
    calculator that inherits [sum]. *)
Lemma sum_throws_build (calculator : object number) (ds : list (shape_desc number))
    (bad : value number) (rest : list (value number)) (k : nat) (g : globals number) :
  lookup_chain calculator "sum" = VClo areaCalculator_sum →
  lookup_chain calculator "shapes" = VArr (map build ds ++ bad :: rest) →
  has_method bad "calculate" = false →
  sum (5 + k) calculator g
  = (Throw TypeError, <["shape" := bad]> (visited g (map build ds))).
Proof.
  intros Hsum Hshapes Hbad.
  change (5 + k) with (S (4 + k)). rewrite (sum_body _ _ _ _ Hsum Hshapes).
  unfold iterate, bind at 1, ret at 1. unfold bind at 1.
  now rewrite for_of_throws.
Qed.

(** [JSON()] and [HTML()] are [sum()] of the calculator followed by the
    formatting of the total. *)
Lemma JSON_after_sum (n : nat) (calculator : value number) (g : globals number) :
  call_method (S n) (VObj (sumCalculatorOputter calculator)) "JSON" [] g
  = (let! total := call_method n calculator "sum" [] in JSON_stringify total) g.
Proof. reflexivity. Qed.

Lemma HTML_after_sum (n : nat) (calculator : value number) (g : globals number) :
  call_method (S n) (VObj (sumCalculatorOputter calculator)) "HTML" [] g
  = (let! total := call_method n calculator "sum" [] in
     let! shown := template_hole total in
     ret (VStr ([Chars HTML_before] ++ shown ++ [Chars HTML_after]))) g.
Proof. reflexivity. Qed.

Lemma sum_missing (n : nat) (calculator : value number) (g : globals number) :
  has_method calculator "sum" = false →
  call_method n calculator "sum" [] g = (Throw TypeError, g).
Proof.
  intros Hno. unfold call_method, method_call, bind.
  destruct calculator as [| |x|t|elems|c|o]; simpl in *; try reflexivity;
    try (unfold ret; now rewrite call_not_function).
  unfold ret. destruct (lookup_chain o "sum"); try discriminate;
    now rewrite call_not_function.
Qed.

End MoreEvaluation.

(** X1: when [shapes] is not something a [for ... of] loop can run over
    ([undefined] as in [areaCalculator()], [null], a number, a function, a
    plain object), [sum()] throws a [TypeError] before any element is
    visited, on an area calculator and on a volume calculator alike. *)
Theorem sum_needs_a_sequence :
  ∀ (number : Type) (arith : Arith number) (s : value number) (k : nat)
    (g : globals number),
    not_iterable s = true →
    sum (1 + k) (areaCalculator s) g = (Throw TypeError, g)
    ∧ sum (1 + k) (volumeCalculator s) g = (Throw TypeError, g).
Proof.
  intros number arith s k g Hs.
  destruct (areaCalculator_props s) as [Ha Hb].
  destruct (volumeCalculator_props s) as [Hc Hd].
  change (1 + k) with (S k).
  rewrite (sum_body k _ s g Ha Hb), (sum_body k _ s g Hc Hd).
  destruct s; try discriminate; split; reflexivity.
Qed.

(** The calculator [areaCalculator()] that [volumeCalculator] builds to
    take the prototype from. *)
Lemma sum_needs_a_sequence_witness :
  not_iterable (VUndef : value R) = true
  ∧ sum 1 (areaCalculator VUndef) (∅ : globals R) = (Throw TypeError, ∅)
  ∧ sum 1 (volumeCalculator VUndef) (∅ : globals R) = (Throw TypeError, ∅).
Proof.
  split; [reflexivity|].
  apply (sum_needs_a_sequence R real_arith VUndef 0 ∅). reflexivity.
Defined.

(** X2: a presenter built on something that has no [sum] function
    ([undefined], a number, an object without the method) still answers
    [HAML()] and [JADE()] with their fixed texts, while [JSON()] and
    [HTML()] throw a [TypeError]; none of the four changes a variable. *)
Theorem presenter_without_calculator :
  ∀ (number : Type) (arith : Arith number) (a : value number) (k : nat)
    (g : globals number),
    has_method a "sum" = false →
    call_method (1 + k) (VObj (sumCalculatorOputter a)) "JSON" [] g
    = (Throw TypeError, g)
    ∧ call_method (1 + k) (VObj (sumCalculatorOputter a)) "HTML" [] g
      = (Throw TypeError, g)
    ∧ call_method (1 + k) (VObj (sumCalculatorOputter a)) "HAML" [] g
      = (Return (str "HAML format output"), g)
    ∧ call_method (1 + k) (VObj (sumCalculatorOputter a)) "JADE" [] g
      = (Return (str "JADE format output"), g).
Proof.
  intros number arith a k g Ha. change (1 + k) with (S k).
  rewrite JSON_after_sum, HTML_after_sum.
  unfold bind. rewrite (sum_missing k a g Ha).
  repeat split; reflexivity.
Qed.

Lemma presenter_without_calculator_witness :
  has_method (VUndef : value R) "sum" = false
  ∧ call_method 1 (VObj (sumCalculatorOputter VUndef)) "JSON" [] (∅ : globals R)
    = (Throw TypeError, ∅)
  ∧ call_method 1 (VObj (sumCalculatorOputter VUndef)) "HTML" [] (∅ : globals R)
    = (Throw TypeError, ∅)
  ∧ call_method 1 (VObj (sumCalculatorOputter VUndef)) "HAML" [] (∅ : globals R)
    = (Return (str "HAML format output"), ∅)
  ∧ call_method 1 (VObj (sumCalculatorOputter VUndef)) "JADE" [] (∅ : globals R)
    = (Return (str "JADE format output"), ∅).
Proof.
  split; [reflexivity|].
  apply (presenter_without_calculator R real_arith VUndef 0 ∅). reflexivity.
Defined.

(** X3: the presenter hides no failure of the aggregator: when the
    sequence holds an element without a [calculate] function, [JSON()] and
    [HTML()] throw the [TypeError] of [sum()] and print nothing, on an
    area calculator and on a volume calculator; the loop variable holds
    the offending element. *)
Theorem presenter_propagates_failure :
  ∀ (number : Type) (arith : Arith number) (ds : list (shape_desc number))
    (bad : value number) (rest : list (value number)) (k : nat)
    (g : globals number),
    has_method bad "calculate" = false →
    let shapes := VArr (map build ds ++ bad :: rest) in
    let failed := (Throw TypeError, <["shape" := bad]> (visited g (map build ds))) in
    call_method (6 + k) (VObj (sumCalculatorOputter (VObj (areaCalculator shapes))))
      "JSON" [] g = failed
    ∧ call_method (6 + k) (VObj (sumCalculatorOputter (VObj (areaCalculator shapes))))
        "HTML" [] g = failed
    ∧ call_method (6 + k) (VObj (sumCalculatorOputter (VObj (volumeCalculator shapes))))
        "JSON" [] g = failed
    ∧ call_method (6 + k) (VObj (sumCalculatorOputter (VObj (volumeCalculator shapes))))
        "HTML" [] g = failed.
Proof.
  intros number arith ds bad rest k g Hbad shapes failed.
  destruct (areaCalculator_props shapes) as [Ha Hb].
  destruct (volumeCalculator_props shapes) as [Hc Hd].
  change (6 + k) with (S (5 + k)).
  rewrite !JSON_after_sum, !HTML_after_sum. unfold bind.
  change (call_method (5 + k) (VObj (areaCalculator shapes)) "sum" [] g)
    with (sum (5 + k) (areaCalculator shapes) g).
  change (call_method (5 + k) (VObj (volumeCalculator shapes)) "sum" [] g)
    with (sum (5 + k) (volumeCalculator shapes) g).
  rewrite (sum_throws_build _ ds bad rest k g Ha Hb Hbad).
  rewrite (sum_throws_build _ ds bad rest k g Hc Hd Hbad).
  repeat split; reflexivity.
Qed.

Lemma presenter_propagates_failure_witness :
  has_method (VNull : value R) "calculate" = false
  ∧ call_method 6
      (VObj (sumCalculatorOputter
               (VObj (areaCalculator (VArr (map build [Circle 2%R] ++ VNull :: [])))))) 
      "JSON" [] (∅ : globals R)
    = (Throw TypeError, <["shape" := VNull]> (visited ∅ (map build [Circle 2%R]))).
Proof.
  split; [reflexivity|].
  exact (proj1 (presenter_propagates_failure R real_arith [Circle 2%R] VNull [] 0 ∅
                  eq_refl)).
Defined.

Lemma Rsum_permutation (xs ys : list R) : Permutation xs ys → Rsum xs = Rsum ys.
Proof.
  induction 1 as [|x xs ys _ IH|x y xs|xs ys zs _ IH1 _ IH2]; simpl.
  - reflexivity.
  - now rewrite IH.
  - lra.
  - now rewrite IH1.
Qed.

(** X4: over the reals the total does not depend on the order of the
    shapes: permuting the sequence leaves what [sum()] returns unchanged. *)
Theorem sum_is_order_independent :
  ∀ (ds ds' : list (shape_desc R)) (k : nat) (g : globals R),
    Permutation ds ds' →
    fst (sum (5 + k) (areaCalculator (VArr (map build ds))) g)
    = fst (sum (5 + k) (areaCalculator (VArr (map build ds'))) g).
Proof.
  intros ds ds' k g Hperm.
  destruct (areaCalculator_props (VArr (map build ds))) as [Ha Hb].
  destruct (areaCalculator_props (VArr (map build ds'))) as [Hc Hd].
  rewrite (sum_build _ ds k g Ha Hb), (sum_build _ ds' k g Hc Hd). simpl.
  do 2 f_equal. rewrite !accumulate_Rsum. f_equal.
  apply Rsum_permutation. now apply Permutation_map.
Qed.

Lemma sum_is_order_independent_witness :
  Permutation [Circle 2%R; Square 5%R] [Square 5%R; Circle 2%R]
  ∧ fst (sum 5 (areaCalculator (VArr (map build [Circle 2%R; Square 5%R]))) (∅ : globals R))
    = fst (sum 5 (areaCalculator (VArr (map build [Square 5%R; Circle 2%R]))) ∅).
Proof.
  split; [apply perm_swap|].
  apply (sum_is_order_independent [Circle 2%R; Square 5%R] [Square 5%R; Circle 2%R] 0 ∅).
  apply perm_swap.
Defined.

(** ** The earlier versions of [sum] *)

Section DocumentEvaluation.
Context {number : Type} {arith : Arith number}.

Lemma sum_by_type_loop_item (i : number + shape_desc number)
    (area : list (value number)) (g : globals number) :
  sum_by_type_loop (tagged_or_built i) area g
  = (Return (area ++ map VNum (map (λ l, Math_pow l 2) (tagged_sides [i]))), g).
Proof.
  destruct i as [l|d].
  - reflexivity.
  - destruct d; simpl; rewrite app_nil_r; reflexivity.
Qed.

Lemma for_of_by_type (items : list (number + shape_desc number)) :
  ∀ (area : list (value number)) (g : globals number),
    for_of (map tagged_or_built items) area sum_by_type_loop g
    = (Return (area ++ map VNum (map (λ l, Math_pow l 2) (tagged_sides items))), g).
Proof.
  induction items as [|i items IH]; intros area g.
  - simpl. now rewrite app_nil_r.
  - change (for_of (map tagged_or_built (i :: items)) area sum_by_type_loop g)
      with (match sum_by_type_loop (tagged_or_built i) area g with
            | (Return a, g') => for_of (map tagged_or_built items) a sum_by_type_loop g'
            | (Throw e, g') => (Throw e, g')
            | (Unsupported, g') => (Unsupported, g')
            | (OutOfFuel, g') => (OutOfFuel, g')
            end).
    rewrite sum_by_type_loop_item, IH. destruct i as [l|d]; simpl.
    + now rewrite <- app_assoc.
    + now rewrite app_nil_r.
Qed.

(** One turn of the checked loop on a square that implements the
    interface. *)
Lemma checked_turn_square (k : nat) (l : number) (g : globals number) :
  implements_shapeInterface (VObj (square_with_interface (VNum l))) g
  = (Return true, g)
  ∧ call_method (2 + k) (VObj (square_with_interface (VNum l))) "area" [] g
    = (Return (VNum (Math_pow l 2)), g).
Proof. split; reflexivity. Qed.

Lemma sum_checked_loop_squares (k : nat) (ls : list number)
    (tail : list (value number)) :
  ∀ (area : list (value number)) (g : globals number),
    sum_checked_loop (2 + k)
      (map (λ l, VObj (square_with_interface (VNum l))) ls ++ tail) area g
    = sum_checked_loop (2 + k) tail
        (area ++ map (λ l, VNum (Math_pow l 2)) ls)
        (visited g (map (λ l, VObj (square_with_interface (VNum l))) ls)).
Proof.
  induction ls as [|l ls IH]; intros area g.
  - simpl. now rewrite app_nil_r.
  - simpl map. simpl app.
    transitivity (sum_checked_loop (2 + k)
                    (map (λ l, VObj (square_with_interface (VNum l))) ls ++ tail)
                    (area ++ [VNum (Math_pow l 2)])
                    (<["shape" := VObj (square_with_interface (VNum l))]> g)).
    + reflexivity.
    + rewrite IH. now rewrite <- app_assoc.
Qed.

End DocumentEvaluation.

(** X5: the [sum] that switches on the type tag skips without a word
    whatever is tagged neither ['Square'] nor ['Circle']: in a sequence
    that mixes squares of the first section with shapes made by the final
    factories (whose [type] reads ['manageShapeInterface']), only the
    squares are summed, no error is thrown and no variable is written. *)
Theorem sum_by_type_skips_other_shapes :
  ∀ (number : Type) (arith : Arith number) (this : object number)
    (items : list (number + shape_desc number)) (g : globals number),
    lookup_chain this "shapes" = VArr (map tagged_or_built items) →
    sum_by_type (VObj this) g
    = (Return (VNum (accumulate (lit 0)
                       (map (λ l, Math_pow l 2) (tagged_sides items)))), g).
Proof.
  intros number arith this items g Hshapes.
  unfold sum_by_type, receiver, get_prop. unfold bind at 1, ret at 1.
  unfold bind at 1, ret at 1. rewrite Hshapes.
  unfold iterate, bind at 1, ret at 1. unfold bind at 1.
  rewrite for_of_by_type. simpl app. apply reduce_numbers.
Qed.

Lemma sum_by_type_skips_other_shapes_witness :
  lookup_chain (areaCalculator
                  (VArr (map tagged_or_built [inl 5%R; inr (Circle 2%R); inr (Cubo 4%R)])))
    "shapes"
  = VArr (map tagged_or_built [inl 5%R; inr (Circle 2%R); inr (Cubo 4%R)])
  ∧ sum_by_type
      (VObj (areaCalculator
               (VArr (map tagged_or_built [inl 5%R; inr (Circle 2%R); inr (Cubo 4%R)]))))
      (∅ : globals R)
    = (Return (VNum (accumulate (lit 0)
                       (map (λ l, Math_pow l 2)
                          (tagged_sides [inl 5%R; inr (Circle 2%R); inr (Cubo 4%R)])))),
       ∅).
Proof.
  split; [reflexivity|].
  apply (sum_by_type_skips_other_shapes R real_arith _
           [inl 5%R; inr (Circle 2%R); inr (Cubo 4%R)] ∅).
  reflexivity.
Defined.

(** X6: what the document prints for [square(5)] holds for every side:
    the object has the single own property [length], its prototype has
    exactly [type: 'shapeInterface'] and the [area] function, and
    [area()] returns the side squared. *)
Theorem square_with_interface_as_documented :
  ∀ (number : Type) (arith : Arith number) (l : number) (k : nat)
    (g : globals number),
    own (square_with_interface (VNum l)) = {["length" := VNum l]}
    ∧ (∃ state : value number,
         option_map own (Object_getPrototypeOf (square_with_interface (VNum l)))
         = Some (<["area" := VClo (shapeInterface_area state)]>
                   {["type" := str "shapeInterface"]}))
    ∧ call_method (2 + k) (VObj (square_with_interface (VNum l))) "area" [] g
      = (Return (VNum (Math_pow l 2)), g).
Proof.
  intros number arith l k g. split; [|split].
  - reflexivity.
  - eexists. reflexivity.
  - reflexivity.
Qed.

(** X7: the [sum] with the interface check accepts the squares that
    implement [shapeInterface] and returns the sum of their areas. *)
Theorem sum_checked_accepts_interface_squares :
  ∀ (number : Type) (arith : Arith number) (this : object number)
    (ls : list number) (k : nat) (g : globals number),
    lookup_chain this "shapes"
    = VArr (map (λ l, VObj (square_with_interface (VNum l))) ls) →
    sum_checked (2 + k) (VObj this) g
    = (Return (Passed (VNum (accumulate (lit 0) (map (λ l, Math_pow l 2) ls)))),
       visited g (map (λ l, VObj (square_with_interface (VNum l))) ls)).
Proof.
  intros number arith this ls k g Hshapes.
  unfold sum_checked, receiver, get_prop. unfold bind at 1, ret at 1.
  unfold bind at 1, ret at 1. rewrite Hshapes.
  unfold iterate, bind at 1, ret at 1. unfold bind at 1.
  rewrite <- (app_nil_r (map _ ls)), sum_checked_loop_squares.
  simpl sum_checked_loop. unfold ret at 1. simpl app. unfold bind.
  rewrite <- (map_map (λ l, Math_pow l 2) VNum), reduce_numbers.
  now rewrite app_nil_r.
Qed.

Lemma sum_checked_accepts_interface_squares_witness :
  lookup_chain (areaCalculator
                  (VArr (map (λ l, VObj (square_with_interface (VNum l))) [5%R; 6%R])))
    "shapes"
  = VArr (map (λ l, VObj (square_with_interface (VNum l))) [5%R; 6%R])
  ∧ sum_checked 2
      (VObj (areaCalculator
               (VArr (map (λ l, VObj (square_with_interface (VNum l))) [5%R; 6%R]))))
      (∅ : globals R)
    = (Return (Passed (VNum (accumulate (lit 0) (map (λ l, Math_pow l 2) [5%R; 6%R])))),
       visited ∅ (map (λ l, VObj (square_with_interface (VNum l))) [5%R; 6%R])).
Proof.
  split; [reflexivity|].
  apply (sum_checked_accepts_interface_squares R real_arith _ [5%R; 6%R] 0 ∅).
  reflexivity.
Defined.



(** ** Accounts *)

(** The tests of the account services over the reals. *)
Lemma real_leb_true (a b : R) : (a <= b)%R → leb a b = true.
Proof. intros H. simpl. now destruct (Rle_dec a b). Qed.

Lemma real_leb_false (a b : R) : (b < a)%R → leb a b = false.
Proof. intros H. simpl. destruct (Rle_dec a b); [lra|reflexivity]. Qed.

Lemma real_ltb_true (a b : R) : (a < b)%R → ltb a b = true.
Proof. intros H. simpl. now destruct (Rlt_dec a b). Qed.

Lemma real_ltb_false (a b : R) : (b <= a)%R → ltb a b = false.
Proof. intros H. simpl. destruct (Rlt_dec a b); [lra|reflexivity]. Qed.

(** Goals of real arithmetic written with the operations of [Arith] and
    [Compare]. *)
Ltac real_arith :=
  cbn [lit add mul sub div Math_pow Math_PI real_arith real_compare
       SoC.balance SoC.with_balance] in *;
  lra.

(** X9: [transfer] of the service without separation of concerns changes
    no account when the amount is zero or negative, or when the first
    user's balance is smaller than the amount: it prints one line and
    returns the two users. *)
Theorem transfer_refused :
  ∀ (w : SoC.world R) (user1 user2 : nat) (amount : R) (U1 : SoC.User R),
    SoC.users w !! user1 = Some U1 →
    (amount <= 0 ∨ SoC.balance U1 - amount < 0)%R →
    ∃ line : text R,
      SoC.Before.transfer user1 user2 amount w
      = (Normal (user1, user2),
         {| SoC.users := SoC.users w; SoC.console := SoC.console w ++ [line] |}).
Proof.
  intros w user1 user2 amount U1 H1 Hrefused.
  unfold SoC.Before.transfer.
  destruct (Rle_dec amount 0) as [Hle|Hgt].
  - assert (Htest : leb amount (lit 0) = true) by now apply real_leb_true.
    rewrite Htest. eexists. reflexivity.
  - assert (Htest : leb amount (lit 0) = false) by (apply real_leb_false; real_arith).
    rewrite Htest.
    destruct Hrefused as [Hle|Hlow]; [lra|].
    assert (Hfunds : ltb (sub (SoC.balance U1) amount) (lit 0) = true)
      by now apply real_ltb_true.
    unfold st_bind at 1, SoC.read at 1. rewrite H1, Hfunds.
    unfold st_bind, SoC.read. rewrite H1. eexists. reflexivity.
Qed.

Lemma transfer_refused_witness :
  let U := {| SoC._id := "a1"; SoC.name := "john"; SoC.balance := 100%R |} in
  let w := {| SoC.users := {[1 := U]}; SoC.console := [] |} in
  SoC.users w !! 1 = Some U
  ∧ (250 <= 0 ∨ SoC.balance U - 250 < 0)%R
  ∧ ∃ line : text R,
      SoC.Before.transfer 1 2 250%R w
      = (Normal (1, 2),
         {| SoC.users := SoC.users w; SoC.console := SoC.console w ++ [line] |}).
Proof.
  intros U w.
  assert (Hlow : (250 <= 0 ∨ SoC.balance U - 250 < 0)%R) by (right; unfold U; real_arith).
  split; [reflexivity|]. split; [exact Hlow|].
  exact (transfer_refused w 1 2 250%R U eq_refl Hlow).
Defined.

Section AccountSteps.
Context {number : Type} {arith : Arith number} {compare : Compare number}.

(** [transfer] of the first service once both tests have passed. *)
Lemma transfer_passed (w : SoC.world number) (user1 user2 : nat) (amount : number)
    (U1 U2 : SoC.User number) :
  leb amount (lit 0) = false →
  SoC.users w !! user1 = Some U1 →
  ltb (sub (SoC.balance U1) amount) (lit 0) = false →
  <[user1 := SoC.with_balance U1 (sub (SoC.balance U1) amount)]> (SoC.users w) !! user2
  = Some U2 →
  ∃ U1' : SoC.User number,
    <[user2 := SoC.with_balance U2 (add (SoC.balance U2) amount)]>
      (<[user1 := SoC.with_balance U1 (sub (SoC.balance U1) amount)]> (SoC.users w))
    !! user1 = Some U1'
    ∧ SoC.Before.transfer user1 user2 amount w
      = (Normal (user1, user2),
         {| SoC.users :=
              <[user2 := SoC.with_balance U2 (add (SoC.balance U2) amount)]>
                (<[user1 := SoC.with_balance U1 (sub (SoC.balance U1) amount)]>
                   (SoC.users w));
            SoC.console :=
              (SoC.console w
               ++ [[Chars "User "; Chars (SoC._id U1'); Chars " now has ";
                    Digits (SoC.balance U1')]])
              ++ [[Chars "User "; Chars (SoC._id U2); Chars " now has ";
                   Digits (add (SoC.balance U2) amount)]] |}).
Proof.
  intros Hpos H1 Hfunds H2.
  assert (Hfinal1 : is_Some
            (<[user2 := SoC.with_balance U2 (add (SoC.balance U2) amount)]>
               (<[user1 := SoC.with_balance U1 (sub (SoC.balance U1) amount)]>
                  (SoC.users w)) !! user1)).
  { destruct (decide (user2 = user1)) as [->|Hne].
    - rewrite lookup_insert_eq. eauto.
    - rewrite lookup_insert_ne, lookup_insert_eq by assumption. eauto. }
  destruct Hfinal1 as [U1' HU1']. exists U1'. split; [exact HU1'|].
  unfold SoC.Before.transfer. rewrite Hpos.
  unfold st_bind at 1, SoC.read at 1. rewrite H1, Hfunds.
  unfold st_bind at 1. unfold st_bind at 1, SoC.read at 1. rewrite H1.
  unfold SoC.write at 1. rewrite H1.
  unfold st_bind at 1. unfold st_bind at 1, SoC.read at 1.
  cbn [SoC.users SoC.console]. rewrite H2.
  unfold SoC.write at 1. cbn [SoC.users SoC.console]. rewrite H2.
  unfold st_bind at 1. unfold st_bind at 1, SoC.read at 1.
  cbn [SoC.users SoC.console]. rewrite HU1'.
  unfold SoC.Before.log, SoC.console_log. cbn [SoC.users SoC.console].
  unfold st_bind at 1. unfold st_bind at 1, SoC.read at 1.
  cbn [SoC.users SoC.console]. rewrite lookup_insert_eq.
  reflexivity.
Qed.

End AccountSteps.







(** X12: [transfer] from a user to that same user, with an amount the
    balance covers, leaves every account as it was over the reals (the
    balance is lowered, then raised again) and prints the unchanged
    balance twice. *)
Theorem transfer_to_oneself :
  ∀ (w : SoC.world R) (user : nat) (amount : R) (U : SoC.User R),
    SoC.users w !! user = Some U →
    (0 < amount <= SoC.balance U)%R →
    SoC.Before.transfer user user amount w
    = (Normal (user, user),
       {| SoC.users := SoC.users w;
          SoC.console :=
            SoC.console w
            ++ [[Chars "User "; Chars (SoC._id U); Chars " now has ";
                 Digits (SoC.balance U)];
                [Chars "User "; Chars (SoC._id U); Chars " now has ";
                 Digits (SoC.balance U)]] |}).
Proof.
  intros w user amount U HU [Hpos Hle].
  destruct (transfer_passed w user user amount U
              (SoC.with_balance U (sub (SoC.balance U) amount)))
    as (V & HV & ->).
  - apply real_leb_false. real_arith.
  - exact HU.
  - apply real_ltb_false. real_arith.
  - apply lookup_insert_eq.
  - rewrite lookup_insert_eq in HV. injection HV as <-.
    assert (Hback : SoC.with_balance
                      (SoC.with_balance U (sub (SoC.balance U) amount))
                      (add (SoC.balance (SoC.with_balance U (sub (SoC.balance U) amount)))
                         amount)
                    = U).
    { destruct U as [i n b]. unfold SoC.with_balance. cbn [SoC._id SoC.name SoC.balance].
      f_equal. real_arith. }
    rewrite Hback, insert_insert_eq, (insert_id _ _ _ HU).
    rewrite <- app_assoc.
    cbn [app SoC._id SoC.name SoC.balance SoC.with_balance].
    replace (add (sub (SoC.balance U) amount) amount) with (SoC.balance U)
      by real_arith.
    replace (SoC.balance U - amount + amount)%R with (SoC.balance U) by lra.
    reflexivity.
Qed.

Lemma transfer_to_oneself_witness :
  let U := {| SoC._id := "a1"; SoC.name := "john"; SoC.balance := 1000%R |} in
  let w := {| SoC.users := {[1 := U]}; SoC.console := [] |} in
  SoC.users w !! 1 = Some U
  ∧ (0 < 250 <= SoC.balance U)%R
  ∧ SoC.users (snd (SoC.Before.transfer 1 1 250%R w)) = SoC.users w.
Proof.
  intros U w.
  assert (Hb : (0 < 250 <= SoC.balance U)%R) by (unfold U; real_arith).
  split; [reflexivity|]. split; [exact Hb|].
  exact (f_equal (λ r, SoC.users (snd r))
           (transfer_to_oneself w 1 250%R U eq_refl Hb)).
Defined.

Section SeparatedSteps.
Context {number : Type} {arith : Arith number} {compare : Compare number}.

(** [setBalance] on a user of the store. *)
Lemma setBalance_user (w : SoC.world number) (this : nat) (amount : number)
    (U : SoC.User number) :
  SoC.users w !! this = Some U →
  SoC.After.setBalance this amount w
  = (Normal this,
     {| SoC.users := <[this := SoC.with_balance U amount]> (SoC.users w);
        SoC.console :=
          SoC.console w
          ++ [[Chars "User "; Chars (SoC._id U); Chars " now has "; Digits amount]] |}).
Proof.
  intros HU. unfold SoC.After.setBalance.
  unfold st_bind at 1. unfold st_bind at 1, SoC.read at 1. rewrite HU.
  unfold SoC.write at 1. rewrite HU.
  unfold st_bind at 1. unfold st_bind at 1.
  unfold SoC.After.getId at 1, st_bind at 1, SoC.read at 1.
  cbn [SoC.users SoC.console]. rewrite lookup_insert_eq.
  unfold st_ret at 1. unfold st_bind at 1.
  unfold SoC.After.getBalance at 1, st_bind at 1, SoC.read at 1.
  cbn [SoC.users SoC.console]. rewrite lookup_insert_eq.
  reflexivity.
Qed.



End SeparatedSteps.







(** X16: [updateBalance] is the same in both services, in any arithmetic:
    for every user, amount and store, the version that goes through
    [getBalance], [setBalance] and the logger changes the same account,
    prints the same line and returns the same user as the version that
    assigns the field itself. Neither validates the amount. *)
Theorem updateBalance_is_unchanged_by_separation :
  ∀ (number : Type) (arith : Arith number) (compare : Compare number)
    (w : SoC.world number) (user : nat) (amount : number),
    SoC.After.updateBalance user amount w = SoC.Before.updateBalance user amount w
    ∧ (∀ U, SoC.users w !! user = Some U →
         SoC.Before.updateBalance user amount w
         = (Normal user,
            {| SoC.users :=
                 <[user := SoC.with_balance U (add (SoC.balance U) amount)]>
                   (SoC.users w);
               SoC.console :=
                 SoC.console w
                 ++ [[Chars "User "; Chars (SoC._id U); Chars " now has ";
                      Digits (add (SoC.balance U) amount)]] |})).
Proof.
  intros number arith compare w user amount.
  assert (Hbefore : ∀ U, SoC.users w !! user = Some U →
            SoC.Before.updateBalance user amount w
            = (Normal user,
               {| SoC.users :=
                    <[user := SoC.with_balance U (add (SoC.balance U) amount)]>
                      (SoC.users w);
                  SoC.console :=
                    SoC.console w
                    ++ [[Chars "User "; Chars (SoC._id U); Chars " now has ";
                         Digits (add (SoC.balance U) amount)]] |})).
  { intros U HU. unfold SoC.Before.updateBalance.
    unfold st_bind at 1. unfold st_bind at 1, SoC.read at 1. rewrite HU.
    unfold SoC.write at 1. rewrite HU.
    unfold st_bind at 1. unfold st_bind at 1, SoC.read at 1.
    cbn [SoC.users SoC.console]. rewrite lookup_insert_eq. reflexivity. }
  split; [|exact Hbefore].
  destruct (SoC.users w !! user) as [U|] eqn:HU.
  - rewrite (Hbefore U eq_refl). unfold SoC.After.updateBalance.
    unfold st_bind at 1. unfold st_bind at 1.
    unfold SoC.After.getBalance at 1, st_bind at 1, SoC.read at 1. rewrite HU.
    unfold st_ret at 1. rewrite (setBalance_user w user _ U HU). reflexivity.
  - unfold SoC.After.updateBalance, SoC.Before.updateBalance, SoC.After.getBalance.
    unfold st_bind, SoC.read. rewrite HU. reflexivity.
Qed.

(** X17: the second [User] class validates the name on construction:
    [new User(name)] throws [Error('String is not long enough.')] for a
    name of at most two characters, leaving behind only the object under
    construction (with its identifier, no name, balance 0) that nothing
    refers to; for a longer name it returns a new user with that name and
    balance 0. The first [User] class accepts every name. *)
Theorem new_User_validates_the_name :
  ∀ (number : Type) (arith : Arith number) (compare : Compare number)
    (w : SoC.world number) (id name : string),
    let this := fresh (dom (SoC.users w)) in
    let built n :=
      {| SoC.users :=
           <[this := {| SoC._id := id; SoC.name := n; SoC.balance := lit 0 |}]>
             (SoC.users w);
         SoC.console := SoC.console w |} in
    SoC.users w !! this = None
    ∧ SoC.After.new_User id name w
      = (if bool_decide (2 < String.length name)
         then (Normal this, built name)
         else (Thrown "String is not long enough.", built ""))
    ∧ SoC.Before.new_User id name w = (Normal this, built name).
Proof.
  intros number arith compare w id name this built.
  assert (Hfresh : SoC.users w !! this = None).
  { apply not_elem_of_dom. apply is_fresh. }
  split; [exact Hfresh|]. split.
  - unfold SoC.After.new_User.
    unfold st_bind at 1, SoC.allocate at 1. fold this.
    unfold st_bind at 1. unfold st_bind at 1, SoC.read at 1.
    cbn [SoC.users SoC.console]. rewrite lookup_insert_eq.
    unfold SoC.write at 1. cbn [SoC.users SoC.console]. rewrite lookup_insert_eq.
    rewrite insert_insert_eq.
    unfold st_bind at 1. unfold SoC.After.setName at 1.
    unfold st_bind at 1. unfold SoC.After.greaterThan at 1.
    destruct (Z.ltb_spec 2 (Z.of_nat (String.length name))) as [Hlong|Hshort].
    + rewrite bool_decide_true by lia.
      unfold st_ret at 1. unfold st_bind at 1. unfold st_bind at 1, SoC.read at 1.
      cbn [SoC.users SoC.console]. rewrite lookup_insert_eq.
      unfold SoC.write at 1. cbn [SoC.users SoC.console]. rewrite lookup_insert_eq.
      rewrite insert_insert_eq. reflexivity.
    + rewrite bool_decide_false by lia. reflexivity.
  - unfold SoC.Before.new_User.
    unfold st_bind at 1, SoC.allocate at 1. fold this.
    unfold st_bind at 1. unfold st_bind at 1, SoC.read at 1.
    cbn [SoC.users SoC.console]. rewrite lookup_insert_eq.
    unfold SoC.write at 1. cbn [SoC.users SoC.console]. rewrite lookup_insert_eq.
    rewrite insert_insert_eq.
    unfold st_bind at 1. unfold st_bind at 1, SoC.read at 1.
    cbn [SoC.users SoC.console]. rewrite lookup_insert_eq.
    unfold SoC.write at 1. cbn [SoC.users SoC.console]. rewrite lookup_insert_eq.
    rewrite insert_insert_eq. reflexivity.
Qed.

(** ** Tokens *)

Section TokenSteps.
Context {number : Type} {arith : Arith number} {compare : Compare number}.




End TokenSteps.






(** X20: the first token service ignores an operation that is neither
    ['add'] nor ['sub'] (another word, another case): it changes nothing,
    reports nothing and returns the user. *)
Theorem unknown_operation_is_ignored :
  ∀ (number : Type) (arith : Arith number) (compare : Compare number)
    (w : TDA.world number) (user : nat) (operation : string) (amount : number),
    operation ≠ "add" → operation ≠ "sub" →
    TDA.Before.updateTokens user operation amount w = (Normal user, w).
Proof.
  intros number arith compare w user operation amount Hadd Hsub.
  unfold TDA.Before.updateTokens.
  apply String.eqb_neq in Hadd, Hsub. rewrite Hadd, Hsub. reflexivity.
Qed.

Lemma unknown_operation_is_ignored_witness :
  let w : TDA.world R := {| TDA.users := ∅; TDA.console := [] |} in
  "Add" ≠ "add" ∧ "Add" ≠ "sub"
  ∧ TDA.Before.updateTokens 1 "Add" 5%R w = (Normal 1, w).
Proof.
  intros w.
  assert (Hadd : "Add" ≠ "add") by discriminate.
  assert (Hsub : "Add" ≠ "sub") by discriminate.
  split; [exact Hadd|]. split; [exact Hsub|].
  exact (unknown_operation_is_ignored R real_arith real_compare w 1 "Add" 5%R Hadd Hsub).
Defined.

(** Running a computation on a store whose lookups are known. *)
Ltac tda_run :=
  repeat first
    [ progress cbn [TDA.users TDA.console fst snd]
    | rewrite lookup_insert_eq
    | rewrite insert_insert_eq
    | progress (unfold st_bind, st_ret, st_throw, TDA.read, TDA.write,
                  TDA.allocate, TDA.console_log) ].

(** X21: the two services draw the line for names at different lengths,
    and fail differently. The first [register] throws for a name shorter
    than three characters and otherwise returns a new user. The second
    never throws: it returns a new user when both names have more than
    three characters, and otherwise prints the [Error] it caught and
    returns [null], on which [updateTokens] then throws a [TypeError]. *)
Theorem register_thresholds :
  ∀ (number : Type) (arith : Arith number) (compare : Compare number)
    (toLowerCase : string → string) (w : TDA.world number)
    (id firstName lastName : string),
    (∃ (r : option nat) (w' : TDA.world number),
       TDA.After.register id firstName lastName w = (Normal r, w')
       ∧ (is_Some r ↔ 3 < String.length firstName ∧ 3 < String.length lastName)
       ∧ (r = None →
          TDA.console w'
          = TDA.console w ++ [TDA.Error_object "String is not long enough."]))
    ∧ ((∃ (u : nat) (w' : TDA.world number),
          TDA.Before.register toLowerCase id firstName lastName w = (Normal u, w'))
       ↔ 3 ≤ String.length firstName ∧ 3 ≤ String.length lastName)
    ∧ (∀ (op : TDA.After.operations) (amount : number) (w' : TDA.world number),
         TDA.After.updateTokens None op amount w' = (Thrown_TypeError, w')).
Proof.
  intros number arith compare toLowerCase w id firstName lastName.
  split; [|split].
  - unfold TDA.After.register, TDA.After.new_User, TDA.After.setFirstName,
      TDA.After.setLastName, TDA.After.greaterThan.
    destruct (Z.ltb_spec 3 (Z.of_nat (String.length firstName))) as [Hf|Hf];
      [destruct (Z.ltb_spec 3 (Z.of_nat (String.length lastName))) as [Hl|Hl]|];
      tda_run; eexists; eexists; (split; [reflexivity|]); cbn [TDA.console].
    + split; [|discriminate]. split; [lia|eauto].
    + split; [|reflexivity]. split; [intros [u Hu]; discriminate|lia].
    + split; [|reflexivity]. split; [intros [u Hu]; discriminate|lia].
  - unfold TDA.Before.register.
    destruct (Nat.ltb_spec (String.length firstName) 3) as [Hf|Hf];
      [|destruct (Nat.ltb_spec (String.length lastName) 3) as [Hl|Hl]].
    + split; [intros (u & w' & Hu); discriminate|lia].
    + split; [intros (u & w' & Hu); discriminate|lia].
    + split; [lia|]. intros _. tda_run. eauto.
  - intros op amount w'. reflexivity.
Qed.

(** ** Payments *)

(** X22: the rewritten [Payment.pay] for Poland charges exactly what
    [howmuchtopay] charges for ['pl_PL'] at the tax of 23, in any
    arithmetic and for every amount and price, whenever the two versions
    make the same decision on the region: as for ['masovia'] and
    ['Lubusz'], and for a region that is in neither list. *)
Theorem pay_charges_what_howmuchtopay_charged :
  ∀ (number : Type) (arith : Arith number) (compare : Compare number)
    (toLowerCase : string → string) (region : string) (amount price : number),
    String.eqb region "masovia" || String.eqb region "Lubusz"
    = negb (KISS.indexOf ["masovia"; "lubusz"] (toLowerCase region) =? -1)%Z →
    KISS.pay toLowerCase KISS.Poland region amount price
    = KISS.howmuchtopay region amount (lit 23) "pl_PL" price.
Proof.
  intros number arith compare toLowerCase region amount price Hregion.
  unfold KISS.pay, KISS.howmuchtopay, KISS.setTax, KISS.setDiscount, KISS.Poland.
  cbn [KISS.discountRegions KISS.discountAmountPercent KISS.taxAmountPercent].
  change (String.eqb "pl_PL" "pl_PL") with true. cbv iota.
  rewrite <- Hregion.
  destruct (String.eqb region "masovia" || String.eqb region "Lubusz");
    destruct (ltb (lit 15) amount); reflexivity.
Qed.

Lemma pay_charges_what_howmuchtopay_charged_witness :
  String.eqb "Lubusz" "masovia" || String.eqb "Lubusz" "Lubusz"
  = negb (KISS.indexOf ["masovia"; "lubusz"] (KISS.lower_ascii "Lubusz") =? -1)%Z
  ∧ KISS.pay KISS.lower_ascii KISS.Poland "Lubusz" 25%R 1000%R
    = KISS.howmuchtopay "Lubusz" 25%R (lit 23) "pl_PL" 1000%R.
Proof.
  split; [reflexivity|].
  exact (pay_charges_what_howmuchtopay_charged R real_arith real_compare
           KISS.lower_ascii "Lubusz" 25%R 1000%R eq_refl).
Defined.


(** ** Weeks *)

Section WeekSteps.
Context {number : Type} {arith : Arith number}.

(** One call of [addDay], unfolded: the new [Day] is a fresh object, it
    goes to the end of [days], and its order is the new length. *)
Lemma addDay_result (dayName : string) (w : DRY.world number) :
  DRY.addDay dayName w
  = (Normal (fresh (dom (DRY.objects w))),
     {| DRY.objects :=
          <[fresh (dom (DRY.objects w)) :=
              {| DRY.name := dayName;
                 DRY.order := lit (Z.of_nat (length (DRY.days w) + 1)) |}]>
            (DRY.objects w);
        DRY.days := DRY.days w ++ [fresh (dom (DRY.objects w))] |}).
Proof.
  unfold DRY.addDay, DRY.new_Day, DRY.push, DRY.setOrder, st_bind, st_ret.
  cbn [DRY.objects DRY.days DRY.name DRY.order].
  rewrite lookup_insert_eq. cbn [DRY.name].
  rewrite insert_insert_eq, length_app. reflexivity.
Qed.

Lemma fresh_not_in_week (w : DRY.world number) (i day : nat) :
  DRY.ordered w → DRY.days w !! i = Some day →
  day ≠ fresh (dom (DRY.objects w)).
Proof.
  intros Hordered Hday Heq.
  destruct (Hordered i day Hday) as (D & HD & _).
  apply (is_fresh (dom (DRY.objects w))).
  rewrite <- Heq. apply elem_of_dom. now exists D.
Qed.

Lemma addDay_ordered (dayName : string) (w : DRY.world number) :
  DRY.ordered w → DRY.ordered (snd (DRY.addDay dayName w)).
Proof.
  intros Hordered i day. rewrite addDay_result. cbn [snd DRY.objects DRY.days].
  intros Hday.
  destruct (decide (i < length (DRY.days w))) as [Hi|Hi].
  - rewrite lookup_app_l in Hday by exact Hi.
    destruct (Hordered i day Hday) as (D & HD & Horder).
    exists D. split; [|exact Horder].
    rewrite lookup_insert_ne; [exact HD|].
    intros Heq. now apply (fresh_not_in_week w i day).
  - rewrite lookup_app_r in Hday by lia.
    destruct (i - length (DRY.days w)) as [|n] eqn:Hn; [|discriminate].
    injection Hday as <-.
    eexists. split; [apply lookup_insert_eq|].
    cbn [DRY.order]. do 2 f_equal. lia.
Qed.

Lemma addDay_names (dayName : string) (w : DRY.world number) :
  DRY.ordered w →
  DRY.names_of (snd (DRY.addDay dayName w)) = DRY.names_of w ++ [Some dayName].
Proof.
  intros Hordered. rewrite addDay_result. unfold DRY.names_of.
  cbn [snd DRY.objects DRY.days].
  rewrite map_app. cbn [map]. rewrite lookup_insert_eq. cbn [option_map DRY.name].
  f_equal.
  apply map_ext_in. intros day Hin.
  first [apply list_elem_of_In in Hin | apply elem_of_list_In in Hin].
  first [apply list_elem_of_lookup in Hin | apply elem_of_list_lookup in Hin].
  destruct Hin as [i Hday].
  rewrite lookup_insert_ne; [reflexivity|].
  intros Heq. now apply (fresh_not_in_week w i day).
Qed.

Lemma addDays_result (names : list string) :
  ∀ w : DRY.world number,
    DRY.ordered w →
    fst (DRY.addDays names w) = Normal tt
    ∧ DRY.ordered (snd (DRY.addDays names w))
    ∧ DRY.names_of (snd (DRY.addDays names w))
      = DRY.names_of w ++ map Some names.
Proof.
  induction names as [|dayName names IH]; intros w Hordered.
  - cbn. rewrite app_nil_r. now repeat split.
  - pose proof (addDay_ordered dayName w Hordered) as Hnext.
    pose proof (addDay_names dayName w Hordered) as Hnames.
    change (DRY.addDays (dayName :: names) w)
      with (st_bind (DRY.addDay dayName) (fun _ => DRY.addDays names) w).
    unfold st_bind. rewrite addDay_result in *. cbn [snd] in Hnext, Hnames.
    destruct (IH _ Hnext) as (Hfst & Hord & Hn).
    split; [exact Hfst|]. split; [exact Hord|].
    rewrite Hn, Hnames, <- app_assoc. reflexivity.
Qed.

End WeekSteps.



(** X25: the loop of the constructor of [Week], over any list of names
    and whatever objects exist already, ends normally with one day per
    name, in the order of the names, each with the order of its place
    counted from 1; so [new Week()] holds Monday to Sunday with the
    orders 1 to 7. *)
Theorem week_is_built_in_order :
  (∀ (number : Type) (arith : Arith number) (names : list string)
     (objects : gmap nat (DRY.Day number)),
     let w := {| DRY.objects := objects; DRY.days := [] |} in
     fst (DRY.addDays names w) = Normal tt
     ∧ DRY.ordered (snd (DRY.addDays names w))
     ∧ DRY.names_of (snd (DRY.addDays names w)) = map Some names)
  ∧ (∀ (number : Type) (arith : Arith number) (w : DRY.world number),
       fst (DRY.new_Week w) = Normal tt
       ∧ DRY.ordered (snd (DRY.new_Week w))
       ∧ DRY.names_of (snd (DRY.new_Week w))
         = [Some "Monday"; Some "Tuesday"; Some "Wednesday"; Some "Thursday";
            Some "Friday"; Some "Saturday"; Some "Sunday"]).
Proof.
  assert (Hloop : ∀ (number : Type) (arith : Arith number) (names : list string)
                    (objects : gmap nat (DRY.Day number)),
             let w := {| DRY.objects := objects; DRY.days := [] |} in
             fst (DRY.addDays names w) = Normal tt
             ∧ DRY.ordered (snd (DRY.addDays names w))
             ∧ DRY.names_of (snd (DRY.addDays names w)) = map Some names).
  { intros number arith names objects w.
    assert (Hempty : DRY.ordered w) by (intros i day Hday; discriminate).
    exact (addDays_result names w Hempty). }
  split; [exact Hloop|].
  intros number arith w. exact (Hloop number arith DRY.dayNames (DRY.objects w)).
Qed.
